(** * Detection metrics and pass/fail classification of the perception evaluator

    A shallow embedding of
      - awml_evaluation/evaluation/metrics/detection/map.py  (MapConfig, Map, Ap),
      - awml_evaluation/evaluation/metrics/metrics.py        (MetricsScore),
      - perception_eval/evaluation/result/perception_pass_fail_result.py
                                                              (PassFailResult),
    followed by the properties of these functions.

    Python values are modelled as follows: [int] is [Z], [float] is the kernel's
    binary64 [float], a [list] is a Rocq [list] indexed the way Python indexes
    it (negative indices count from the end, anything else out of range raises
    [IndexError]), exceptions are the [Raise] outcome, and what [logger.warning]
    emits is kept in a log that is threaded through the calls. *)

From Stdlib Require Import ZArith Lia PrimFloat FloatOps SpecFloat.
From stdpp Require Import base tactics option list strings.

Set Warnings "-inexact-float".
Open Scope Z_scope.

(* ===================================================================== *)
(** ** The fragment of Python the sources use *)
(* ===================================================================== *)

Module Python.

(** The exceptions the modelled statements can raise. *)
Inductive exception : Set :=
| IndexError
| ZeroDivisionError
| OverflowError.

(** What evaluating an expression or running a statement ends in. *)
Inductive outcome (A : Type) : Type :=
| Return (a : A)
| Raise (e : exception).
Arguments Return {A} a.
Arguments Raise {A} e.

#[export] Instance outcome_ret : MRet outcome := @Return.
#[export] Instance outcome_bind : MBind outcome := λ A B f m,
  match m with
  | Return a => f a
  | Raise e => Raise e
  end.

(** Code that also reads and writes a store [S]: the store survives a raise,
    as mutations of Python objects do. *)
Definition Py (S A : Type) : Type := S → S * outcome A.

#[export] Instance Py_ret {S} : MRet (Py S) := λ A a s, (s, Return a).
#[export] Instance Py_bind {S} : MBind (Py S) := λ A B f m s,
  match m s with
  | (s', Return a) => f a s'
  | (s', Raise e) => (s', Raise e)
  end.

(** An expression that touches no store, used inside store-passing code. *)
Definition pure {S A} (o : outcome A) : Py S A := λ s, (s, o).

(** Running code written against a part [S] of a bigger store [T * S]. *)
Definition within {T S A} (m : Py S A) : Py (T * S) A := λ ts,
  let '(s', o) := m ts.2 in ((ts.1, s'), o).

(** [for x in xs: body], where [s] holds the variables the body assigns. *)
Fixpoint for_in {M : Type → Type} `{!MBind M, !MRet M} {A S : Type}
    (xs : list A) (body : A → S → M S) (s : S) : M S :=
  match xs with
  | [] => mret s
  | x :: xs' => s' ← body x s; for_in xs' body s'
  end.

(** [len(l)] *)
Definition len {A} (l : list A) : Z := Z.of_nat (length l).

(** The truth value of a list: it is false exactly when the list is empty. *)
Definition truthy {A} (l : list A) : bool := negb (bool_decide (len l = 0)).

(** The position a subscript [i] denotes in a sequence of [n] items. *)
Definition position (n i : Z) : option nat :=
  if bool_decide (0 ≤ i < n) then Some (Z.to_nat i)
  else if bool_decide (- n ≤ i < 0) then Some (Z.to_nat (n + i))
  else None.

(** [l[i]] *)
Definition getitem {A} (l : list A) (i : Z) : outcome A :=
  match position (len l) i ≫= (l !!.) with
  | Some x => Return x
  | None => Raise IndexError
  end.

(** [l[i] = x] *)
Definition setitem {A} (l : list A) (i : Z) (x : A) : outcome (list A) :=
  match position (len l) i with
  | Some k => Return (<[k:=x]> l)
  | None => Raise IndexError
  end.

(** [range(a, b)] *)
Definition range (a b : Z) : list Z :=
  (λ k : nat, a + Z.of_nat k) <$> seq 0 (Z.to_nat (b - a)).

(** [l.append(x)] *)
Definition append {A} (l : list A) (x : A) : list A := l ++ [x].

(** The nearest binary64 value of an integer, ties to even. *)
Definition Z2float (z : Z) : float := SF2Prim (binary_normalize prec emax z 0 false).

(** The first magnitude that rounds past the largest finite binary64 value. *)
Definition float_overflow : Z := 2 ^ 1024 - 2 ^ 970.

(** [float(z)], also the conversion an [int] operand of a [float] operation
    undergoes: "int too large to convert to float" is an [OverflowError]. *)
Definition float_of_int (z : Z) : outcome float :=
  if bool_decide (Z.abs z < float_overflow) then Return (Z2float z)
  else Raise OverflowError.

(** [x / d] for a float [x] and an int [d]. *)
Definition truediv (x : float) (d : Z) : outcome float :=
  d' ← float_of_int d;
  if bool_decide (d = 0) then Raise ZeroDivisionError else Return (x / d')%float.

(** [sys.maxsize], the largest length a list can have. *)
Definition sys_maxsize : Z := 2 ^ 63 - 1.

(** The records [logger.warning] has emitted so far, oldest first. *)
Definition Log : Type := list string.

(** [logger.warning(msg)] *)
Definition warning (msg : string) : Py Log () := λ log, (log ++ [msg], Return ()).

End Python.

Import Python.

(* ===================================================================== *)
(** ** awml_evaluation: what the two files import *)
(* ===================================================================== *)

(** [MatchingMode] of evaluation/matching/object_matching.py is not among the
    sources; these are the three members metrics.py names. *)
Inductive MatchingMode : Set :=
| CENTERDISTANCE
| IOU3d
| PLANEDISTANCE.

(** The classes and the two filters map.py imports, none of them among the
    sources, taken as an interface: labels, ground-truth objects, object
    results with their [is_label_correct] attribute, and the filters as the
    pure functions the specification says they are. *)
Class AwmlEvaluation : Type := {
  AutowareLabel : Type;
  DynamicObject : Type;
  DynamicObjectWithResult : Type;
  is_label_correct : DynamicObjectWithResult → bool;
  filter_tp_objects :
    list DynamicObjectWithResult → list AutowareLabel → MatchingMode → float →
    list DynamicObjectWithResult;
  filter_ground_truth_objects :
    list DynamicObject → list AutowareLabel → list DynamicObject;
}.

(* ===================================================================== *)
(** ** map.py: class Ap *)
(* ===================================================================== *)

Module Ap.
Section Ap.
Context `{!AwmlEvaluation}.

(** The attributes [Ap.__init__] sets. *)
Record t : Type := {
  target_labels : list AutowareLabel;
  matching_mode : MatchingMode;
  matching_threshold : float;
  ground_truth_objects_num : Z;
  tp_list : list Z;
  fp_list : list Z;
  ap : float;
}.

(** [Ap._calculate_tp_fp] (map.py, lines 233-280). *)
Definition _calculate_tp_fp
    (object_results : list DynamicObjectWithResult)
    (ground_truth_objects_num : Z) : Py Log (list Z * list Z) :=
  if bool_decide (len object_results = 0) && bool_decide (ground_truth_objects_num ≠ 0)
  then
    _ ← warning "The size of object_results is 0";
    mret ([], [])
  else
    let object_results_num := len object_results in
    let tp_list : list Z := (λ _, 0) <$> range 0 object_results_num in
    let fp_list : list Z := (λ _, 0) <$> range 0 object_results_num in
    pure (
      (* init *)
      first ← getitem object_results 0;
      '(tp_list, fp_list) ←
        (if is_label_correct first then
           tp_list ← setitem tp_list 0 1;
           fp_list ← setitem fp_list 0 0;
           mret (tp_list, fp_list)
         else
           tp_list ← setitem tp_list 0 0;
           fp_list ← setitem fp_list 0 1;
           mret (tp_list, fp_list));
      for_in (range 1 (len object_results))
        (λ i '(tp_list, fp_list),
           object_result ← getitem object_results i;
           tp_list ←
             (if is_label_correct object_result then
                prev ← getitem tp_list (i - 1);
                setitem tp_list i (prev + 1)
              else
                prev ← getitem tp_list (i - 1);
                setitem tp_list i prev);
           tp_i ← getitem tp_list i;
           fp_list ← setitem fp_list i (i + 1 - tp_i);
           mret (tp_list, fp_list))
        (tp_list, fp_list)).

(** [Ap.get_precision_recall_list] (map.py, lines 204-231); the two attributes
    of [self] it reads are its arguments here. *)
Definition get_precision_recall_list
    (tp_list : list Z) (ground_truth_objects_num : Z)
    : outcome (list float * list float) :=
  let precisions_list : list float := (λ _, 0%float) <$> range 0 (len tp_list) in
  let recalls_list : list float := (λ _, 0%float) <$> range 0 (len tp_list) in
  for_in (range 0 (len precisions_list))
    (λ i '(precisions_list, recalls_list),
       tp_i ← getitem tp_list i;
       tp_f ← float_of_int tp_i;
       precision ← truediv tp_f (i + 1);
       precisions_list ← setitem precisions_list i precision;
       recalls_list ←
         (if bool_decide (ground_truth_objects_num > 0) then
            tp_i ← getitem tp_list i;
            tp_f ← float_of_int tp_i;
            recall ← truediv tp_f ground_truth_objects_num;
            setitem recalls_list i recall
          else
            setitem recalls_list i 0%float);
       mret (precisions_list, recalls_list))
    (precisions_list, recalls_list).

(** [Ap._calculate_ap] (map.py, lines 282-331). *)
Definition _calculate_ap (precision_list recall_list : list float) : outcome float :=
  if bool_decide (len precision_list = 0) then mret 0%float
  else
    last_precision ← getitem precision_list (-1);
    last_recall ← getitem recall_list (-1);
    let max_precision_list : list float := [last_precision] in
    let max_precision_recall_list : list float := [last_recall] in
    '(max_precision_list, max_precision_recall_list) ←
      for_in (reverse (range 0 (len recall_list - 1)))
        (λ i '(max_precision_list, max_precision_recall_list),
           precision_i ← getitem precision_list i;
           max_precision ← getitem max_precision_list (-1);
           if (max_precision <? precision_i)%float then
             precision_i ← getitem precision_list i;
             let max_precision_list := append max_precision_list precision_i in
             recall_i ← getitem recall_list i;
             let max_precision_recall_list := append max_precision_recall_list recall_i in
             mret (max_precision_list, max_precision_recall_list)
           else
             mret (max_precision_list, max_precision_recall_list))
        (max_precision_list, max_precision_recall_list);
    (* append min recall *)
    max_precision ← getitem max_precision_list (-1);
    let max_precision_list := append max_precision_list max_precision in
    let max_precision_recall_list := append max_precision_recall_list 0%float in
    for_in (range 0 (len max_precision_list - 1))
      (λ i (ap : float),
         precision_i ← getitem max_precision_list i;
         recall_i ← getitem max_precision_recall_list i;
         recall_next ← getitem max_precision_recall_list (i + 1);
         let score := (precision_i * (recall_i - recall_next))%float in
         mret (ap + score)%float)
      0%float.

(** [Ap.__init__] (map.py, lines 122-173). *)
Definition __init__
    (object_results : list DynamicObjectWithResult)
    (ground_truth_objects : list DynamicObject)
    (target_labels : list AutowareLabel)
    (matching_mode : MatchingMode)
    (matching_threshold : float) : Py Log t :=
  (* filter predicted object and results by iou_threshold and target_labels *)
  let filtered_object_results :=
    filter_tp_objects object_results target_labels matching_mode matching_threshold in
  let filtered_ground_truth_objects :=
    filter_ground_truth_objects ground_truth_objects target_labels in
  let ground_truth_objects_num := len filtered_ground_truth_objects in
  (* tp and fp from object results ordered by confidence *)
  '(tp_list, fp_list) ←
    _calculate_tp_fp filtered_object_results ground_truth_objects_num;
  (* precision recall *)
  '(precision_list, recall_list) ←
    pure (get_precision_recall_list tp_list ground_truth_objects_num);
  (* AP *)
  ap ← pure (_calculate_ap precision_list recall_list);
  mret {|
    target_labels := target_labels;
    matching_mode := matching_mode;
    matching_threshold := matching_threshold;
    ground_truth_objects_num := ground_truth_objects_num;
    tp_list := tp_list;
    fp_list := fp_list;
    ap := ap;
  |}.

End Ap.
End Ap.

(* ===================================================================== *)
(** ** map.py: classes MapConfig and Map *)
(* ===================================================================== *)

Module MapConfig.
Section MapConfig.
Context `{!AwmlEvaluation}.

Record t : Type := {
  target_labels : list AutowareLabel;
  matching_mode : MatchingMode;
  matching_threshold : float;
}.

End MapConfig.
End MapConfig.

Module Map.
Section Map.
Context `{!AwmlEvaluation}.

(** The attributes of a [Map] object. [__init__] returns before it sets any of
    them when there is no target label: [None] is an attribute that was never
    assigned. *)
Record t : Type := {
  map_config : option MapConfig.t;
  aps : option (list Ap.t);
  map : option float;
}.

(** [Map.__init__] (map.py, lines 58-101). *)
Definition __init__
    (object_results : list DynamicObjectWithResult)
    (ground_truth_objects : list DynamicObject)
    (target_labels : list AutowareLabel)
    (matching_mode : MatchingMode)
    (matching_threshold : float) : Py Log t :=
  if negb (truthy target_labels) then
    _ ← warning "target_labels is empty ([])";
    mret {| map_config := None; aps := None; map := None |}
  else
    let map_config :=
      {| MapConfig.target_labels := target_labels;
         MapConfig.matching_mode := matching_mode;
         MapConfig.matching_threshold := matching_threshold |} in
    aps ←
      for_in (MapConfig.target_labels map_config)
        (λ target_label (aps : list Ap.t),
           ap_ ← Ap.__init__ object_results ground_truth_objects [target_label]
                   matching_mode matching_threshold;
           mret (append aps ap_))
        [];
    (* calculate mAP *)
    sum_ap ←
      for_in aps (λ ap (sum_ap : float), mret (sum_ap + Ap.ap ap)%float) 0%float;
    map ← pure (truediv sum_ap (len target_labels));
    mret {| map_config := Some map_config; aps := Some aps; map := Some map |}.

End Map.
End Map.

(* ===================================================================== *)
(** ** metrics.py: class MetricsScore *)
(* ===================================================================== *)

Module MetricsScoreConfig.
Section MetricsScoreConfig.
Context `{!AwmlEvaluation}.

(** [MetricsScoreConfig] of evaluation/metrics/configure.py is not among the
    sources: these are the attributes metrics.py reads, each threshold
    attribute a list of zero or more thresholds as the specification has it. *)
Record t : Type := {
  target_labels : list AutowareLabel;
  map_thresholds_center_distance : list float;
  map_thresholds_iou : list float;
  map_thresholds_plane_distance : list float;
}.

End MetricsScoreConfig.
End MetricsScoreConfig.

Module MetricsScore.
Section MetricsScore.
Context `{!AwmlEvaluation}.

Record t : Type := {
  config : MetricsScoreConfig.t;
  maps : list Map.t;
}.

(** The store of a method of [MetricsScore]: [self] and the log. *)
Definition Store : Type := t * Log.

(** [MetricsScore.__init__] (metrics.py, lines 19-30). *)
Definition __init__ (metrics_config : MetricsScoreConfig.t) : t :=
  {| config := metrics_config; maps := [] |}.

(** [self.config] *)
Definition self_config : Py Store MetricsScoreConfig.t :=
  λ s, (s, Return (config s.1)).

(** [self.maps.append(map_)] *)
Definition self_maps_append (map_ : Map.t) : Py Store () :=
  λ s, (({| config := config s.1; maps := append (maps s.1) map_ |}, s.2), Return ()).

(** [MetricsScore._evaluation_detection] (metrics.py, lines 69-110). *)
Definition _evaluation_detection
    (object_results : list DynamicObjectWithResult)
    (ground_truth_objects : list DynamicObject) : Py Store () :=
  config ← self_config;
  _ ←
    (if truthy (MetricsScoreConfig.map_thresholds_center_distance config) then
       for_in (MetricsScoreConfig.map_thresholds_center_distance config)
         (λ distance_threshold_ _,
            map_ ← within (Map.__init__ object_results ground_truth_objects
                             (MetricsScoreConfig.target_labels config)
                             CENTERDISTANCE distance_threshold_);
            self_maps_append map_)
         ()
     else mret ());
  _ ←
    (if truthy (MetricsScoreConfig.map_thresholds_iou config) then
       for_in (MetricsScoreConfig.map_thresholds_iou config)
         (λ iou_threshold_ _,
            map_ ← within (Map.__init__ object_results ground_truth_objects
                             (MetricsScoreConfig.target_labels config)
                             IOU3d iou_threshold_);
            self_maps_append map_)
         ()
     else mret ());
  if truthy (MetricsScoreConfig.map_thresholds_center_distance config) then
    for_in (MetricsScoreConfig.map_thresholds_plane_distance config)
      (λ distance_threshold_ _,
         map_ ← within (Map.__init__ object_results ground_truth_objects
                          (MetricsScoreConfig.target_labels config)
                          PLANEDISTANCE distance_threshold_);
         self_maps_append map_)
      ()
  else mret ().

(** [MetricsScore._evaluation_tracking] (metrics.py, lines 112-122): [pass]. *)
Definition _evaluation_tracking
    (object_results : list DynamicObjectWithResult) : Py Store () := mret ().

(** [MetricsScore._evaluation_prediction] (metrics.py, lines 124-134): [pass]. *)
Definition _evaluation_prediction
    (object_results : list DynamicObjectWithResult) : Py Store () := mret ().

(** [MetricsScore.evaluate] (metrics.py, lines 53-67). *)
Definition evaluate
    (object_results : list DynamicObjectWithResult)
    (ground_truth_objects : list DynamicObject) : Py Store () :=
  _ ← _evaluation_detection object_results ground_truth_objects;
  _ ← _evaluation_tracking object_results;
  _evaluation_prediction object_results.

End MetricsScore.
End MetricsScore.

(* ===================================================================== *)
(** ** perception_pass_fail_result.py: class PassFailResult *)
(* ===================================================================== *)

(** The classes and the function perception_pass_fail_result.py imports, none
    of them among the sources, taken as an interface. [same_object x e] is the
    test [x is e or x == e] that [in] applies to the items of a list, and
    [divide_tp_fp_objects] is the pure function the specification describes. *)
Class PerceptionEval : Type := {
  LabelType : Type;
  PerceptionMatchingMode : Type;
  ObjectType : Type;
  DynamicObjectWithPerceptionResult : Type;
  ground_truth_object : DynamicObjectWithPerceptionResult → option ObjectType;
  same_object : ObjectType → ObjectType → bool;
  divide_tp_fp_objects :
    list DynamicObjectWithPerceptionResult → list LabelType →
    PerceptionMatchingMode → list float →
    list DynamicObjectWithPerceptionResult * list DynamicObjectWithPerceptionResult;
}.

Module PerceptionPassFailConfig.
Section PerceptionPassFailConfig.
Context `{!PerceptionEval}.

(** [PerceptionPassFailConfig] of perception_frame_config.py is not among the
    sources: these are the attributes [get_tp_fp_object_results] reads. *)
Record t : Type := {
  target_labels : list LabelType;
  matching_mode : PerceptionMatchingMode;
  matching_threshold_list : list float;
  leave_only_critical_fp : bool;
}.

End PerceptionPassFailConfig.
End PerceptionPassFailConfig.

Module PassFailResult.
Section PassFailResult.
Context `{!PerceptionEval}.

(** [x in l] for an optional object [x] and a list [l] of objects: [None] is
    no item of such a list and equals none. *)
Definition contains (x : option ObjectType) (l : list ObjectType) : bool :=
  match x with
  | Some g => existsb (same_object g) l
  | None => false
  end.

(** [PassFailResult.get_tp_fp_object_results] (lines 105-141); of [self] it
    reads [frame_pass_fail_config] only. *)
Definition get_tp_fp_object_results
    (frame_pass_fail_config : PerceptionPassFailConfig.t)
    (object_results : list DynamicObjectWithPerceptionResult)
    (critical_ground_truth_objects : option (list ObjectType))
    : list DynamicObjectWithPerceptionResult * list DynamicObjectWithPerceptionResult :=
  let '(tp_object_results, fp_object_results) :=
    divide_tp_fp_objects object_results
      (PerceptionPassFailConfig.target_labels frame_pass_fail_config)
      (PerceptionPassFailConfig.matching_mode frame_pass_fail_config)
      (PerceptionPassFailConfig.matching_threshold_list frame_pass_fail_config) in
  if negb (PerceptionPassFailConfig.leave_only_critical_fp frame_pass_fail_config) then
    (tp_object_results, fp_object_results)
  else
    (* filter by critical_ground_truth_objects *)
    let fp_critical_object_results :=
      foldl
        (λ fp_critical_object_results fp_object_result,
           if match critical_ground_truth_objects with
              | Some critical =>
                  contains (ground_truth_object fp_object_result) critical
              | None => false
              end
           then append fp_critical_object_results fp_object_result
           else fp_critical_object_results)
        [] fp_object_results in
    (tp_object_results, fp_critical_object_results).

End PassFailResult.
End PassFailResult.

(* ===================================================================== *)
(** ** map.py: the function _get_flat_str *)
(* ===================================================================== *)

(** [_get_flat_str] (map.py, lines 334-343); [f"{output}_{one_str}"] on
    strings is concatenation. *)
Definition _get_flat_str (str_list : list string) : string :=
  foldl (λ output one_str, output +:+ "_" +:+ one_str) "" str_list.

(* ===================================================================== *)
(** ** metrics.py: MetricsScore.__str__ *)
(* ===================================================================== *)

(** Reading an attribute of an object: an attribute that was never assigned
    raises [AttributeError]. *)
Inductive read (A : Type) : Type :=
| Read (a : A)
| AttributeError (attribute : string).
Arguments Read {A} a.
Arguments AttributeError {A} attribute.

#[export] Instance read_ret : MRet read := @Read.
#[export] Instance read_bind : MBind read := λ A B f m,
  match m with
  | Read a => f a
  | AttributeError attribute => AttributeError attribute
  end.

(** [o.attribute], for an attribute kept as [None] until it is assigned. *)
Definition getattr {A} (attribute : string) (value : option A) : read A :=
  match value with
  | Some a => Read a
  | None => AttributeError attribute
  end.

(** The line feed. *)
Definition newline : string := String (Ascii.ascii_of_nat 10) "".

(** What [__str__] formats with, none of it among the sources: the [value] of
    a matching mode and of a label, and the text an f-string gives a float and
    an int. *)
Class Formatting `{!AwmlEvaluation} : Type := {
  matching_mode_value : MatchingMode → string;
  label_value : AutowareLabel → string;
  float_str : float → string;
  int_str : Z → string;
}.

Module MetricsScoreStr.
Section MetricsScoreStr.
Context `{!AwmlEvaluation} `{!Formatting}.

(** [MetricsScore.__str__] (metrics.py, lines 32-51). *)
Definition __str__ (self : MetricsScore.t) : read string :=
  for_in (MetricsScore.maps self)
    (λ map_ (str_ : string),
       map_config ← getattr "map_config" (Map.map_config map_);
       let str_ :=
         str_ +:+ (matching_mode_value (MapConfig.matching_mode map_config)
                   +:+ " " +:+ float_str (MapConfig.matching_threshold map_config)) in
       map ← getattr "map" (Map.map map_);
       let str_ := str_ +:+ (" mAP: " +:+ float_str map) in
       aps ← getattr "aps" (Map.aps map_);
       let object_num : Z :=
         foldl (λ object_num ap_, object_num + Ap.ground_truth_objects_num ap_) 0 aps in
       let str_ := str_ +:+ (" (object num " +:+ int_str object_num +:+ ")") in
       aps ← getattr "aps" (Map.aps map_);
       let str_ :=
         foldl
           (λ str_ ap_,
              let target_str :=
                foldl (λ target_str target, target_str +:+ label_value target)
                  "" (Ap.target_labels ap_) in
              str_ +:+ (", AP " +:+ target_str +:+ ": " +:+ float_str (Ap.ap ap_)))
           str_ aps in
       mret (str_ +:+ newline))
    newline.

End MetricsScoreStr.
End MetricsScoreStr.

(* ===================================================================== *)
(** ** perception_pass_fail_result.py: the PassFailResult object *)
(* ===================================================================== *)

(** The two functions [PassFailResult.evaluate] imports besides, and the
    types of their configuration, none of them among the sources: the
    critical-object filter with its keyword parameters, and the function that
    collects the FN objects. *)
Class PerceptionFilters `{!PerceptionEval} : Type := {
  FilteringParams : Type;
  Ego2Map : Type;
  filter_objects :
    list ObjectType → bool → option Ego2Map → FilteringParams → list ObjectType;
  get_fn_objects :
    list ObjectType → list DynamicObjectWithPerceptionResult →
    list DynamicObjectWithPerceptionResult → list ObjectType;
}.

Module PassFailResultObject.
Section PassFailResultObject.
Context `{!PerceptionEval} `{!PerceptionFilters}.

(** The attributes of a [PassFailResult]; of [critical_object_filter_config]
    the code reads [filtering_params] only. *)
Record t : Type := {
  filtering_params : FilteringParams;
  frame_pass_fail_config : PerceptionPassFailConfig.t;
  ego2map : option Ego2Map;
  critical_ground_truth_objects : list ObjectType;
  fn_objects : list ObjectType;
  fp_object_results : list DynamicObjectWithPerceptionResult;
  tp_object_results : list DynamicObjectWithPerceptionResult;
}.

(** [PassFailResult.__init__] (lines 52-67). *)
Definition __init__ (critical_object_filter_config : FilteringParams)
    (frame_pass_fail_config : PerceptionPassFailConfig.t)
    (ego2map : option Ego2Map) : t :=
  {| filtering_params := critical_object_filter_config;
     frame_pass_fail_config := frame_pass_fail_config;
     ego2map := ego2map;
     critical_ground_truth_objects := [];
     fn_objects := [];
     fp_object_results := [];
     tp_object_results := [] |}.

(** [PassFailResult.evaluate] (lines 69-95). *)
Definition evaluate (self : t)
    (object_results : list DynamicObjectWithPerceptionResult)
    (ros_critical_ground_truth_objects : list ObjectType) : t :=
  let critical_ground_truth_objects :=
    filter_objects ros_critical_ground_truth_objects true (ego2map self)
      (filtering_params self) in
  let '(tp_object_results, fp_object_results) :=
    PassFailResult.get_tp_fp_object_results (frame_pass_fail_config self)
      object_results (Some critical_ground_truth_objects) in
  let fn_objects :=
    get_fn_objects critical_ground_truth_objects object_results tp_object_results in
  {| filtering_params := filtering_params self;
     frame_pass_fail_config := frame_pass_fail_config self;
     ego2map := ego2map self;
     critical_ground_truth_objects := critical_ground_truth_objects;
     fn_objects := fn_objects;
     fp_object_results := fp_object_results;
     tp_object_results := tp_object_results |}.

(** [PassFailResult.get_fail_object_num] (lines 97-103). *)
Definition get_fail_object_num (self : t) : Z :=
  len (fn_objects self) + len (fp_object_results self).

End PassFailResultObject.
End PassFailResultObject.

(* ===================================================================== *)
(** ** The specification's side of the properties *)
(* ===================================================================== *)

Module Spec.

(** Section 4.1: the number of records at positions [0..i] whose
    label-correct flag is true. *)
Definition correct_upto `{!AwmlEvaluation}
    (records : list DynamicObjectWithResult) (i : nat) : Z :=
  len (List.filter is_label_correct (take (S i) records)).

(** Section 4.2, "valid inputs": every integer the curve converts to a float
    is one Python can convert, as counts of list items always are. *)
Definition convertible (z : Z) : Prop := Z.abs z < float_overflow.

(** Section 4.3, step 4, second item: a sample whose precision exceeds the
    last value of the envelope is appended to the envelope. *)
Definition envelope_step
    (env : list float * list float) (sample : float * float)
    : list float * list float :=
  if (List.last env.1 0 <? sample.1)%float
  then (env.1 ++ [sample.1], env.2 ++ [sample.2])
  else env.

(** Section 4.3, step 4, first three items: start from the last sample, walk
    the earlier ones from the second-to-last down to the first, then repeat
    the last envelope precision at recall 0. The result is [envelope] and
    [envelopeRecall]. *)
Definition envelope (precision recall : list float) : list float * list float :=
  match reverse (zip precision recall) with
  | [] => ([], [])
  | (precision_last, recall_last) :: earlier =>
      let env := foldl envelope_step ([precision_last], [recall_last]) earlier in
      (env.1 ++ [List.last env.1 0%float], env.2 ++ [0%float])
  end.

(** Section 4.3, step 4, fourth item: the sum, taken in the order of the
    envelope, of [envelope[k] * (envelopeRecall[k] - envelopeRecall[k+1])]
    over consecutive pairs. *)
Fixpoint riemann_sum (sum : float) (envelope envelope_recall : list float) : float :=
  match envelope, envelope_recall with
  | p :: envelope', r :: envelope_recall' =>
      match envelope_recall' with
      | r' :: _ => riemann_sum (sum + p * (r - r'))%float envelope' envelope_recall'
      | [] => sum
      end
  | _, _ => sum
  end.

Definition average_precision (precision recall : list float) : float :=
  let env := envelope precision recall in
  riemann_sum 0%float env.1 env.2.

(** Section 4.4: the sum of the AP values, in label order, from 0.0. *)
Definition sum_ap `{!AwmlEvaluation} (aps : list Ap.t) : float :=
  foldl (λ sum a, (sum + Ap.ap a)%float) 0%float aps.

End Spec.

(* ===================================================================== *)
(** ** Frame conditions *)
(* ===================================================================== *)

(** Code that only appends to the log, where neither what it appends nor how
    it ends depends on the log it starts from. *)
Definition log_appending {A} (m : Py Log A) : Prop :=
  ∀ log : Log, m log = (log ++ (m []).1, (m []).2).

(** A method of [MetricsScore] that leaves [self.config] alone and only
    appends to [self.maps] and to the log, where neither what it appends nor
    how it ends depends on the maps and the log it starts from: it does on
    [self] what it does on a fresh object with the same configuration, after
    what was there. *)
Definition maps_appending `{!AwmlEvaluation} {A} (m : Py MetricsScore.Store A) : Prop :=
  ∀ (self : MetricsScore.t) (log : Log),
    m (self, log) =
      let fresh := m (MetricsScore.__init__ (MetricsScore.config self), []) in
      (({| MetricsScore.config := MetricsScore.config self;
           MetricsScore.maps := MetricsScore.maps self ++ MetricsScore.maps fresh.1.1 |},
        log ++ fresh.1.2),
       fresh.2).

(** A method of [MetricsScore] that, on an object with the configuration
    [config], leaves [self.config] alone and keeps a property of all the
    stored results true. *)
Definition maps_keeping `{!AwmlEvaluation} {A} (P : Map.t → Prop)
    (config : MetricsScoreConfig.t) (m : Py MetricsScore.Store A) : Prop :=
  ∀ (self : MetricsScore.t) (log : Log),
    MetricsScore.config self = config →
    Forall P (MetricsScore.maps self) →
    Forall P (MetricsScore.maps (m (self, log)).1.1)
    ∧ MetricsScore.config (m (self, log)).1.1 = config.

(* ===================================================================== *)
(** ** Callers *)
(* ===================================================================== *)

(** A frame: the arguments of one call of [evaluate]. *)
Definition Frame `{!AwmlEvaluation} : Type :=
  list DynamicObjectWithResult * list DynamicObject.

(** The store after one call of [evaluate] per frame on one [MetricsScore],
    each call starting from the store the call before it left, whether that
    call returned or raised. *)
Definition store_after_calls `{!AwmlEvaluation}
    (frames : list Frame) (store : MetricsScore.Store) : MetricsScore.Store :=
  foldl (λ store frame, (MetricsScore.evaluate frame.1 frame.2 store).1) store frames.

(** What one call of [evaluate] leaves in a fresh object: the results it
    constructed, and the warnings it logged. *)
Definition fresh_call `{!AwmlEvaluation}
    (config : MetricsScoreConfig.t) (frame : Frame) : list Map.t * Log :=
  let store :=
    (MetricsScore.evaluate frame.1 frame.2 (MetricsScore.__init__ config, [])).1 in
  (MetricsScore.maps store.1, store.2).

(* ===================================================================== *)
(** ** A small instance of the interfaces, to run the code on *)
(* ===================================================================== *)

Module Scenario.

Inductive label : Set := CAR | PEDESTRIAN.

#[export] Instance label_eq_dec : EqDecision label.
Proof. solve_decision. Defined.

(** Labels are the two above, a ground-truth object is its label, an object
    result is the label of the predicted object with its label-correct flag,
    and the filters keep the objects of the target labels. *)
#[export] Instance awml : AwmlEvaluation := {|
  AutowareLabel := label;
  DynamicObject := label;
  DynamicObjectWithResult := label * bool;
  is_label_correct := snd;
  filter_tp_objects := λ object_results target_labels _ _,
    List.filter (λ r, bool_decide (r.1 ∈ target_labels)) object_results;
  filter_ground_truth_objects := λ objects target_labels,
    List.filter (λ o, bool_decide (o ∈ target_labels)) objects;
|}.

(** Four cars predicted with flags [T, F, T, T], one pedestrian predicted with
    no pedestrian in the ground truth, four cars in the ground truth. *)
Definition object_results : list (label * bool) :=
  [(CAR, true); (CAR, false); (CAR, true); (CAR, true); (PEDESTRIAN, false)].
Definition ground_truth_objects : list label := [CAR; CAR; CAR; CAR].

(** One center-distance and one IoU threshold, no plane-distance threshold. *)
Definition metrics_config : MetricsScoreConfig.t :=
  {| MetricsScoreConfig.target_labels := [CAR; PEDESTRIAN];
     MetricsScoreConfig.map_thresholds_center_distance := [1.0]%float;
     MetricsScoreConfig.map_thresholds_iou := [0.5]%float;
     MetricsScoreConfig.map_thresholds_plane_distance := [] |}.

(** A plane-distance threshold and no other. *)
Definition plane_distance_config : MetricsScoreConfig.t :=
  {| MetricsScoreConfig.target_labels := [CAR; PEDESTRIAN];
     MetricsScoreConfig.map_thresholds_center_distance := [];
     MetricsScoreConfig.map_thresholds_iou := [];
     MetricsScoreConfig.map_thresholds_plane_distance := [2.0]%float |}.

(** A ground-truth object is its number, an object result is its matched
    ground truth (if any) with the verdict of [divide_tp_fp_objects]. *)
#[export] Instance perception : PerceptionEval := {|
  LabelType := label;
  PerceptionMatchingMode := MatchingMode;
  ObjectType := nat;
  DynamicObjectWithPerceptionResult := option nat * bool;
  ground_truth_object := fst;
  same_object := Nat.eqb;
  divide_tp_fp_objects := λ object_results _ _ _,
    (List.filter snd object_results, List.filter (λ r, negb r.2) object_results);
|}.

Definition pass_fail_config (leave_only_critical_fp : bool) : PerceptionPassFailConfig.t :=
  {| PerceptionPassFailConfig.target_labels := [CAR; PEDESTRIAN];
     PerceptionPassFailConfig.matching_mode := PLANEDISTANCE;
     PerceptionPassFailConfig.matching_threshold_list := [1; 1]%float;
     PerceptionPassFailConfig.leave_only_critical_fp := leave_only_critical_fp |}.

(** One TP matched with object 1, FPs matched with objects 2 and 3, and one FP
    matched with nothing. *)
Definition perception_results : list (option nat * bool) :=
  [(Some 1%nat, true); (Some 2%nat, false); (None, false); (Some 3%nat, false)].

(** The texts of the two enumerations; floats and ints are shown by a mark. *)
#[export] Instance formatting : @Formatting awml := {|
  matching_mode_value := λ matching_mode,
    match matching_mode with
    | CENTERDISTANCE => "center_distance"
    | IOU3d => "iou_3d"
    | PLANEDISTANCE => "plane_distance"
    end;
  label_value := λ target,
    match target with CAR => "car" | PEDESTRIAN => "pedestrian" end;
  float_str := λ _, "<float>";
  int_str := λ _, "<int>";
|}.

(** No target label, and one threshold of each kind. *)
Definition no_label_config : @MetricsScoreConfig.t awml :=
  {| MetricsScoreConfig.target_labels := [];
     MetricsScoreConfig.map_thresholds_center_distance := [1.0]%float;
     MetricsScoreConfig.map_thresholds_iou := [0.5]%float;
     MetricsScoreConfig.map_thresholds_plane_distance := [2.0]%float |}.

(** The critical objects are the objects numbered up to the parameter, and an
    object is FN when no TP result is matched with it. *)
#[export] Instance perception_filters : @PerceptionFilters perception := {|
  FilteringParams := nat;
  Ego2Map := unit;
  filter_objects := λ objects _ _ max_number,
    List.filter (λ o, Nat.leb o max_number) objects;
  get_fn_objects := λ ground_truth_objects _ tp_object_results,
    List.filter
      (λ g, negb (existsb (λ r : option nat * bool,
                             match r.1 with Some o => Nat.eqb o g | None => false end)
                    tp_object_results))
      ground_truth_objects;
|}.

(** An object result with the two scores the filter compares with the
    threshold. *)
Record scored_result : Set := {
  scored_label : label;
  scored_correct : bool;
  scored_distance : float;
  scored_iou : float;
}.

(** A second instance, whose filter looks at the matching mode and at the
    threshold: a result passes a distance mode when its distance is at most
    the threshold, and the IoU mode when its IoU is at least the threshold. *)
#[export] Instance awml_scored : AwmlEvaluation := {|
  AutowareLabel := label;
  DynamicObject := label;
  DynamicObjectWithResult := scored_result;
  is_label_correct := scored_correct;
  filter_tp_objects := λ object_results target_labels matching_mode matching_threshold,
    List.filter
      (λ r, bool_decide (scored_label r ∈ target_labels)
            && match matching_mode with
               | IOU3d => (matching_threshold <=? scored_iou r)%float
               | _ => (scored_distance r <=? matching_threshold)%float
               end)
      object_results;
  filter_ground_truth_objects := λ objects target_labels,
    List.filter (λ o, bool_decide (o ∈ target_labels)) objects;
|}.

(** One pedestrian predicted half a metre off with an IoU of 0.1, and no
    pedestrian in the ground truth. *)
Definition scored_object_results : list scored_result :=
  [{| scored_label := PEDESTRIAN; scored_correct := false;
      scored_distance := 0.5; scored_iou := 0.1 |}].

(** Pedestrians, with a center-distance threshold of 1.0 and an IoU threshold
    of 0.5. *)
Definition scored_config : @MetricsScoreConfig.t awml_scored :=
  {| MetricsScoreConfig.target_labels := [PEDESTRIAN];
     MetricsScoreConfig.map_thresholds_center_distance := [1.0]%float;
     MetricsScoreConfig.map_thresholds_iou := [0.5]%float;
     MetricsScoreConfig.map_thresholds_plane_distance := [] |}.

End Scenario.

(* ===================================================================== *)
(** ** Facts about the Python fragment *)
(* ===================================================================== *)

Section python_facts.
Context {A : Type}.
Implicit Types (l : list A) (x : A) (k : nat).

Lemma position_nat (n : Z) k : Z.of_nat k < n → position n (Z.of_nat k) = Some k.
Proof.
  intros Hk. unfold position.
  rewrite bool_decide_eq_true_2 by lia. by rewrite Nat2Z.id.
Qed.

Lemma getitem_lookup l k x : l !! k = Some x → getitem l (Z.of_nat k) = Return x.
Proof.
  intros Hx. unfold getitem.
  rewrite position_nat; [simpl; by rewrite Hx|].
  apply lookup_lt_Some in Hx. unfold len. lia.
Qed.

Lemma getitem_nil (i : Z) : getitem (@nil A) i = Raise IndexError.
Proof.
  unfold getitem, position, len. simpl.
  by rewrite !bool_decide_eq_false_2 by lia.
Qed.

Lemma getitem_last l x : getitem (l ++ [x]) (-1) = Return x.
Proof.
  unfold getitem, position, len. rewrite length_app. simpl.
  rewrite bool_decide_eq_true_2 by lia. simpl.
  replace (Z.to_nat (Z.of_nat (length l + 1) + -1)) with (length l + 0)%nat by lia.
  by rewrite lookup_app_r, Nat.add_comm, Nat.add_sub by lia.
Qed.

Lemma getitem_last_default l (d : A) : l ≠ [] → getitem l (-1) = Return (List.last l d).
Proof.
  intros Hl. destruct (exists_last Hl) as (l' & x & ->).
  by rewrite getitem_last, last_last.
Qed.

Lemma setitem_insert l k x :
  (k < length l)%nat → setitem l (Z.of_nat k) x = Return (<[k:=x]> l).
Proof.
  intros Hk. unfold setitem. rewrite position_nat; [done|]. unfold len. lia.
Qed.

Lemma len_nonneg l : 0 ≤ len l.
Proof. unfold len. lia. Qed.

Lemma len_app l1 l2 : len (l1 ++ l2) = len l1 + len l2.
Proof. unfold len. rewrite length_app. lia. Qed.

Lemma truthy_cons x l : truthy (x :: l) = true.
Proof. unfold truthy, len. by rewrite bool_decide_eq_false_2 by (simpl; lia). Qed.

Lemma truthy_nonempty l : l ≠ [] → truthy l = true.
Proof. destruct l; [done|]. intros _. apply truthy_cons. Qed.

End python_facts.

Lemma range_nil (a b : Z) : b ≤ a → range a b = [].
Proof. intros Hab. unfold range. by replace (Z.to_nat (b - a)) with 0%nat by lia. Qed.

Lemma range_cons (a b : Z) : a < b → range a b = a :: range (a + 1) b.
Proof.
  intros Hab. unfold range.
  replace (Z.to_nat (b - a)) with (S (Z.to_nat (b - (a + 1)))) by lia.
  simpl. f_equal; [lia|].
  rewrite <- fmap_S_seq, <- list_fmap_compose.
  apply list_fmap_ext. intros _ k _. simpl. lia.
Qed.

Lemma range_snoc (a b : Z) : a ≤ b → range a (b + 1) = range a b ++ [b].
Proof.
  intros Hab. unfold range.
  replace (Z.to_nat (b + 1 - a)) with (Z.to_nat (b - a) + 1)%nat by lia.
  rewrite seq_app, fmap_app. simpl. do 2 f_equal. lia.
Qed.

Lemma range_len_zeros {B} (z : B) (n : nat) :
  (λ _, z) <$> range 0 (Z.of_nat n) = replicate n z.
Proof.
  unfold range. rewrite <- list_fmap_compose, Z.sub_0_r, Nat2Z.id.
  apply list_eq. intros i. rewrite list_lookup_fmap.
  destruct (decide (i < n)%nat) as [Hi|Hi].
  - rewrite lookup_replicate_2 by done. by rewrite lookup_seq_lt.
  - rewrite lookup_seq_ge by lia. symmetry. apply lookup_replicate_None. lia.
Qed.

(** The invariant rule for [for i in range(a, b)] in code that can raise: an
    invariant every iteration re-establishes without raising holds at the end,
    and the loop does not raise. *)
Lemma for_in_range_invariant {S} (I : Z → S → Prop) (a b : Z)
    (body : Z → S → outcome S) (s : S) :
  a ≤ b →
  I a s →
  (∀ i s, a ≤ i < b → I i s → ∃ s', body i s = Return s' ∧ I (i + 1) s') →
  ∃ s', for_in (range a b) body s = Return s' ∧ I b s'.
Proof.
  intros Hab. remember (Z.to_nat (b - a)) as n eqn:Hn.
  revert a s Hab Hn. induction n as [|n IH]; intros a s Hab Hn Ha Hstep.
  - assert (a = b) as -> by lia. rewrite range_nil by lia. by exists s.
  - rewrite range_cons by lia. simpl.
    destruct (Hstep a s) as (s1 & -> & Hs1); [lia|done|]. simpl.
    apply IH; [lia|lia|done|]. intros i s' Hi. apply Hstep. lia.
Qed.

(* ===================================================================== *)
(** ** The TP/FP accumulator *)
(* ===================================================================== *)

Section accumulator.
Context `{!AwmlEvaluation}.
Implicit Types (records : list DynamicObjectWithResult) (i : nat).

Lemma correct_upto_0 r records :
  Spec.correct_upto (r :: records) 0 = if is_label_correct r then 1 else 0.
Proof. unfold Spec.correct_upto. simpl. by destruct (is_label_correct r). Qed.

Lemma correct_upto_S records i r :
  records !! S i = Some r →
  Spec.correct_upto records (S i) =
    Spec.correct_upto records i + if is_label_correct r then 1 else 0.
Proof.
  intros Hr. unfold Spec.correct_upto.
  rewrite (take_S_r _ (S i) r) by done.
  rewrite List.filter_app, len_app. simpl.
  destruct (is_label_correct r); unfold len; simpl; lia.
Qed.

Lemma correct_upto_bounds records i : 0 ≤ Spec.correct_upto records i ≤ Z.of_nat i + 1.
Proof.
  unfold Spec.correct_upto, len. split; [lia|].
  pose proof (List.filter_length_le is_label_correct (take (S i) records)) as Hle.
  rewrite length_take in Hle. lia.
Qed.

(** What the accumulator computes on a record list that is not empty. *)
Lemma calculate_tp_fp_nonempty records (ground_truth_objects_num : Z) (log : Log) :
  records ≠ [] →
  ∃ tp fp,
    Ap._calculate_tp_fp records ground_truth_objects_num log = (log, Return (tp, fp))
    ∧ length tp = length records
    ∧ length fp = length records
    ∧ ∀ i, (i < length records)%nat →
        tp !! i = Some (Spec.correct_upto records i)
        ∧ fp !! i = Some (Z.of_nat i + 1 - Spec.correct_upto records i).
Proof.
  destruct records as [|r0 records']; [done|intros _].
  set (records := r0 :: records'). set (n := length records).
  assert (0 < n)%nat as Hn by (subst n records; simpl; lia).
  unfold Ap._calculate_tp_fp.
  rewrite (bool_decide_eq_false_2 (len records = 0)) by (unfold len; fold n; lia).
  simpl andb. cbv iota. unfold pure.
  change (len records) with (Z.of_nat n). rewrite range_len_zeros.
  change (getitem records 0) with (getitem records (Z.of_nat 0)).
  rewrite (getitem_lookup records 0 r0) by done.
  cbn [mbind outcome_bind].
  assert (∀ v w : Z,
    (tp_list ← setitem (replicate n 0) 0 v;
     fp_list ← setitem (replicate n 0) 0 w;
     mret (tp_list, fp_list))
    = Return (<[0%nat:=v]> (replicate n 0), <[0%nat:=w]> (replicate n 0))) as Hinit.
  { intros v w. change 0 with (Z.of_nat 0) at 2 4.
    by rewrite !setitem_insert by (rewrite length_replicate; lia). }
  set (I := λ (k : Z) (s : list Z * list Z),
    length s.1 = n ∧ length s.2 = n ∧
    ∀ i, Z.of_nat i < k →
      s.1 !! i = Some (Spec.correct_upto records i)
      ∧ s.2 !! i = Some (Z.of_nat i + 1 - Spec.correct_upto records i)).
  match goal with
  | |- context [for_in _ ?b] => set (body := b)
  end.
  assert (∀ s, I 1 s →
    ∃ tp fp, for_in (range 1 (Z.of_nat n)) body s = Return (tp, fp)
      ∧ length tp = n ∧ length fp = n
      ∧ ∀ i, (i < n)%nat →
          tp !! i = Some (Spec.correct_upto records i)
          ∧ fp !! i = Some (Z.of_nat i + 1 - Spec.correct_upto records i)) as Hloop.
  { intros s Hs.
    destruct (for_in_range_invariant I 1 (Z.of_nat n) body s) as ([tp fp] & Hrun & Htp & Hfp & Hat);
      [lia|done| |].
    - clear s Hs. intros j [tp fp] Hj (Htp & Hfp & Hat). cbn [fst snd] in Htp, Hfp, Hat.
      assert (∃ k : nat, j = Z.of_nat k) as [k ->] by (exists (Z.to_nat j); lia).
      assert (k = S (k - 1)) as Hk by lia.
      destruct (lookup_lt_is_Some_2 records k) as [r Hr]; [fold n; lia|].
      destruct (Hat (k - 1)%nat) as [Hprev _]; [lia|].
      assert (Spec.correct_upto records k =
              Spec.correct_upto records (k - 1) + if is_label_correct r then 1 else 0) as Hcount.
      { rewrite Hk at 1. apply correct_upto_S. by rewrite <- Hk. }
      exists (<[k:=Spec.correct_upto records k]> tp,
              <[k:=Z.of_nat k + 1 - Spec.correct_upto records k]> fp).
      split.
      + unfold body. rewrite (getitem_lookup records k r) by done.
        cbn [mbind outcome_bind].
        replace (Z.of_nat k - 1) with (Z.of_nat (k - 1)) by lia.
        rewrite (getitem_lookup tp (k - 1) _ Hprev).
        assert ((if is_label_correct r
                 then prev ← Return (Spec.correct_upto records (k - 1));
                      setitem tp (Z.of_nat k) (prev + 1)
                 else prev ← Return (Spec.correct_upto records (k - 1));
                      setitem tp (Z.of_nat k) prev)
                = Return (<[k:=Spec.correct_upto records k]> tp)) as ->.
        { rewrite Hcount. destruct (is_label_correct r); cbn [mbind outcome_bind];
            rewrite setitem_insert by lia; do 2 f_equal; lia. }
        cbn [mbind outcome_bind].
        rewrite (getitem_lookup _ k (Spec.correct_upto records k))
          by (apply list_lookup_insert_eq; lia).
        cbn [mbind outcome_bind].
        by rewrite setitem_insert by lia.
      + unfold I. cbn [fst snd]. rewrite !length_insert. split_and!; [done|done|].
        intros i Hi. destruct (decide (i = k)) as [->|Hne].
        * by rewrite !list_lookup_insert_eq by lia.
        * rewrite !list_lookup_insert_ne by done. apply Hat. lia.
    - exists tp, fp. split_and!; [done|done|done|]. intros i Hi. apply Hat. lia. }
  assert (∀ v w : Z,
    v = Spec.correct_upto records 0 → w = 1 - v →
    I 1 (<[0%nat:=v]> (replicate n 0), <[0%nat:=w]> (replicate n 0))) as Hfirst.
  { intros v w -> ->. unfold I. cbn [fst snd]. rewrite !length_insert, !length_replicate.
    split_and!; [done|done|]. intros i Hi. assert (i = 0%nat) as -> by lia.
    rewrite !list_lookup_insert_eq by (rewrite length_replicate; lia).
    split; f_equal; lia. }
  pose proof (correct_upto_0 r0 records') as H0. fold records in H0.
  destruct (is_label_correct r0); rewrite Hinit; cbn [mbind outcome_bind];
    [destruct (Hloop _ (Hfirst 1 0 (eq_sym H0) eq_refl)) as (tp & fp & -> & Htp & Hfp & Hat)
    |destruct (Hloop _ (Hfirst 0 1 (eq_sym H0) eq_refl)) as (tp & fp & -> & Htp & Hfp & Hat)];
    by exists tp, fp.
Qed.

End accumulator.

Section accumulator_properties.
Context `{!AwmlEvaluation}.
Implicit Types (records : list DynamicObjectWithResult) (i : nat).

(** C3: on a sequence of [n >= 1] match records the accumulator returns two
    sequences of length [n]; [tp[i]] is the number of records at positions
    [0..i] whose label-correct flag is true and [fp[i] = (i+1) - tp[i]]. In
    particular the flags [T, F, T, T] give [tp = [1,1,2,3]] and
    [fp = [0,1,1,1]]. The order of the records is not looked at, and nothing
    is logged. *)
Theorem calculate_tp_fp_counts records (ground_truth_objects_num : Z) (log : Log) :
  records ≠ [] →
  ∃ tp fp,
    Ap._calculate_tp_fp records ground_truth_objects_num log = (log, Return (tp, fp))
    ∧ length tp = length records
    ∧ length fp = length records
    ∧ (∀ i, (i < length records)%nat →
         tp !! i = Some (Spec.correct_upto records i)
         ∧ fp !! i = Some (Z.of_nat i + 1 - Spec.correct_upto records i))
    ∧ (is_label_correct <$> records = [true; false; true; true] →
         tp = [1; 1; 2; 3] ∧ fp = [0; 1; 1; 1]).
Proof.
  intros Hne.
  destruct (calculate_tp_fp_nonempty records ground_truth_objects_num log Hne)
    as (tp & fp & Hrun & Htp & Hfp & Hat).
  exists tp, fp. split_and!; [done..|].
  intros Hflags.
  destruct records as [|a [|b [|c [|d [|? ?]]]]]; try done.
  simpl in Hflags. injection Hflags as Ha Hb Hc Hd.
  destruct tp as [|t0 [|t1 [|t2 [|t3 [|? ?]]]]]; try done.
  destruct fp as [|f0 [|f1 [|f2 [|f3 [|? ?]]]]]; try done.
  pose proof (Hat 0%nat) as H0. pose proof (Hat 1%nat) as H1.
  pose proof (Hat 2%nat) as H2. pose proof (Hat 3%nat) as H3.
  unfold Spec.correct_upto in *. simpl in *. rewrite Ha, Hb, Hc, Hd in *. simpl in *.
  destruct H0 as [[= ->] [= ->]]; [lia|]. destruct H1 as [[= ->] [= ->]]; [lia|].
  destruct H2 as [[= ->] [= ->]]; [lia|]. destruct H3 as [[= ->] [= ->]]; [lia|].
  done.
Qed.

(** C9: on a record list that is not empty the sequences the accumulator
    returns satisfy [tp[i] + fp[i] = i + 1] at every index, and from one index
    to the next [tp] stays or grows by one. *)
Theorem calculate_tp_fp_invariant records (ground_truth_objects_num : Z) (log : Log) :
  records ≠ [] →
  ∃ tp fp,
    Ap._calculate_tp_fp records ground_truth_objects_num log = (log, Return (tp, fp))
    ∧ length tp = length records
    ∧ length fp = length records
    ∧ (∀ i t f, tp !! i = Some t → fp !! i = Some f → t + f = Z.of_nat i + 1)
    ∧ (∀ i t t', tp !! i = Some t → tp !! S i = Some t' → t' = t ∨ t' = t + 1).
Proof.
  intros Hne.
  destruct (calculate_tp_fp_nonempty records ground_truth_objects_num log Hne)
    as (tp & fp & Hrun & Htp & Hfp & Hat).
  exists tp, fp. split_and!; [done..| |].
  - intros i t f Ht Hf.
    destruct (Hat i) as [Ht' Hf']; [apply lookup_lt_Some in Ht; lia|].
    rewrite Ht in Ht'. rewrite Hf in Hf'. simplify_eq. lia.
  - intros i t t' Ht Ht'.
    assert (S i < length records)%nat as Hi by (apply lookup_lt_Some in Ht'; lia).
    destruct (Hat i) as [Hi1 _]; [lia|]. destruct (Hat (S i)) as [Hi2 _]; [lia|].
    rewrite Ht in Hi1. rewrite Ht' in Hi2. simplify_eq.
    destruct (lookup_lt_is_Some_2 records (S i) Hi) as [r Hr].
    rewrite (correct_upto_S records i r Hr). destruct (is_label_correct r); lia.
Qed.

(** With no record and a ground-truth count that is not zero the accumulator
    logs a warning and returns two empty sequences. *)
Lemma calculate_tp_fp_no_records (ground_truth_objects_num : Z) (log : Log) :
  ground_truth_objects_num ≠ 0 →
  Ap._calculate_tp_fp [] ground_truth_objects_num log
  = (log ++ ["The size of object_results is 0"], Return ([], [])).
Proof.
  intros Hgt. unfold Ap._calculate_tp_fp.
  by rewrite (bool_decide_eq_true_2 (ground_truth_objects_num ≠ 0)) by done.
Qed.

(** C2, on the code: with no record and a ground-truth count of zero the guard
    of the accumulator does not apply, and reading [object_results[0]] raises
    [IndexError]: no sequences are returned and no AP value is computed. *)
Theorem calculate_tp_fp_no_records_no_ground_truth (log : Log) :
  Ap._calculate_tp_fp [] 0 log = (log, Raise IndexError).
Proof.
  unfold Ap._calculate_tp_fp.
  rewrite (bool_decide_eq_false_2 (0 ≠ 0)) by lia. rewrite andb_false_r.
  unfold pure. by rewrite getitem_nil.
Qed.

(** The same in [Ap.__init__]: when both filters leave nothing, it raises. *)
Lemma Ap_init_nothing_left object_results ground_truth_objects target_labels
    matching_mode matching_threshold (log : Log) :
  filter_tp_objects object_results target_labels matching_mode matching_threshold = [] →
  filter_ground_truth_objects ground_truth_objects target_labels = [] →
  Ap.__init__ object_results ground_truth_objects target_labels
    matching_mode matching_threshold log = (log, Raise IndexError).
Proof. intros Hr Hg. unfold Ap.__init__. by rewrite Hr, Hg. Qed.

End accumulator_properties.

(** The instance of C3 in the scenario: the four car records. *)
Lemma calculate_tp_fp_counts_witness :
  @Ap._calculate_tp_fp Scenario.awml (take 4 Scenario.object_results) 4 []
  = ([], Return ([1; 1; 2; 3], [0; 1; 1; 1])).
Proof.
  destruct (@calculate_tp_fp_counts Scenario.awml (take 4 Scenario.object_results) 4 [])
    as (tp & fp & Hrun & _ & _ & _ & Hflags); [done|].
  destruct (Hflags eq_refl) as [-> ->]. exact Hrun.
Defined.

(** The instance of C9 in the scenario. *)
Lemma calculate_tp_fp_invariant_witness :
  ∃ tp fp,
    @Ap._calculate_tp_fp Scenario.awml Scenario.object_results 4 [] = ([], Return (tp, fp))
    ∧ length tp = 5%nat
    ∧ length fp = 5%nat
    ∧ (∀ i t f, tp !! i = Some t → fp !! i = Some f → t + f = Z.of_nat i + 1)
    ∧ (∀ i t t', tp !! i = Some t → tp !! S i = Some t' → t' = t ∨ t' = t + 1).
Proof. apply (@calculate_tp_fp_invariant Scenario.awml Scenario.object_results 4 []). done. Defined.

(* ===================================================================== *)
(** ** The precision/recall curve *)
(* ===================================================================== *)

Lemma float_of_int_convertible (z : Z) :
  Spec.convertible z → float_of_int z = Return (Z2float z).
Proof. intros Hz. unfold float_of_int. by rewrite bool_decide_eq_true_2. Qed.

Lemma truediv_nonzero (x : float) (d : Z) :
  Spec.convertible d → d ≠ 0 → truediv x d = Return (x / Z2float d)%float.
Proof.
  intros Hd Hnz. unfold truediv. rewrite float_of_int_convertible by done.
  cbn [mbind outcome_bind]. by rewrite bool_decide_eq_false_2.
Qed.

Lemma sys_maxsize_convertible (z : Z) : Z.abs z ≤ sys_maxsize + 1 → Spec.convertible z.
Proof.
  intros Hz. unfold Spec.convertible.
  assert (sys_maxsize + 1 < float_overflow) by (by vm_compute). lia.
Qed.

(** The loop of [get_precision_recall_list] returns on integers that convert
    to floats, with the precision and the recall of every rank. *)
Lemma get_precision_recall_list_returns (tp_list : list Z) (ground_truth_objects_num : Z) :
  Forall Spec.convertible tp_list →
  Spec.convertible (len tp_list) →
  Spec.convertible ground_truth_objects_num →
  ∃ precision recall,
    Ap.get_precision_recall_list tp_list ground_truth_objects_num
    = Return (precision, recall)
    ∧ length precision = length tp_list
    ∧ length recall = length tp_list
    ∧ ∀ (i : nat) (tp_i : Z), tp_list !! i = Some tp_i →
        precision !! i = Some (Z2float tp_i / Z2float (Z.of_nat i + 1))%float
        ∧ recall !! i =
            Some (if bool_decide (ground_truth_objects_num > 0)
                  then (Z2float tp_i / Z2float ground_truth_objects_num)%float
                  else 0%float).
Proof.
  intros Htp Hlen Hgt. set (n := length tp_list).
  unfold Ap.get_precision_recall_list.
  change (len tp_list) with (Z.of_nat n). rewrite range_len_zeros.
  replace (len (replicate n 0%float)) with (Z.of_nat n)
    by (unfold len; by rewrite length_replicate).
  set (I := λ (k : Z) (s : list float * list float),
    length s.1 = n ∧ length s.2 = n ∧
    ∀ (i : nat) (tp_i : Z), Z.of_nat i < k → tp_list !! i = Some tp_i →
      s.1 !! i = Some (Z2float tp_i / Z2float (Z.of_nat i + 1))%float
      ∧ s.2 !! i =
          Some (if bool_decide (ground_truth_objects_num > 0)
                then (Z2float tp_i / Z2float ground_truth_objects_num)%float
                else 0%float)).
  match goal with
  | |- context [for_in _ ?b ?s0] => set (body := b); set (start := s0)
  end.
  destruct (for_in_range_invariant I 0 (Z.of_nat n) body start)
    as ([precision recall] & Hrun & Hp & Hr & Hat).
  - lia.
  - unfold I, start. cbn [fst snd]. rewrite length_replicate.
    split_and!; [done|done|]. intros i tp_i Hi. lia.
  - intros j [precision recall] Hj (Hp & Hr & Hat). cbn [fst snd] in Hp, Hr, Hat.
    assert (∃ k : nat, j = Z.of_nat k) as [k ->] by (exists (Z.to_nat j); lia).
    destruct (lookup_lt_is_Some_2 tp_list k) as [tp_k Hk]; [fold n; lia|].
    assert (Spec.convertible tp_k) as Hconv
      by (eapply Forall_lookup_1; [exact Htp|exact Hk]).
    assert (Spec.convertible (Z.of_nat k + 1)) as Hrank.
    { unfold Spec.convertible in *. unfold len in Hlen. fold n in Hlen.
      clear -Hlen Hj. lia. }
    exists (<[k:=(Z2float tp_k / Z2float (Z.of_nat k + 1))%float]> precision,
            <[k:=if bool_decide (ground_truth_objects_num > 0)
                 then (Z2float tp_k / Z2float ground_truth_objects_num)%float
                 else 0%float]> recall).
    split.
    + unfold body. rewrite (getitem_lookup tp_list k tp_k Hk).
      cbn [mbind outcome_bind]. rewrite float_of_int_convertible by done.
      cbn [mbind outcome_bind].
      rewrite (truediv_nonzero _ (Z.of_nat k + 1)) by (done || lia).
      case_bool_decide as Hpos.
      * rewrite (truediv_nonzero _ ground_truth_objects_num) by (done || lia).
        cbn [mbind outcome_bind]. by rewrite !setitem_insert by lia.
      * cbn [mbind outcome_bind]. by rewrite !setitem_insert by lia.
    + unfold I. cbn [fst snd]. rewrite !length_insert. split_and!; [done|done|].
      intros i tp_i Hi Hlook. destruct (decide (i = k)) as [->|Hne].
      * rewrite Hk in Hlook. injection Hlook as <-.
        by rewrite !list_lookup_insert_eq by lia.
      * rewrite !list_lookup_insert_ne by done. apply Hat; [lia|done].
  - exists precision, recall. split_and!; [done..|].
    intros i tp_i Hi. apply Hat; [|done]. apply lookup_lt_Some in Hi. fold n in Hi. lia.
Qed.

(** C8: on every valid input, that is whenever the entries of [tp], the ranks
    up to its length and the ground-truth count are integers Python converts
    to a float, the precision/recall computation returns: no division by zero
    and no index error is reachable. It returns two lists as long as [tp] with
    [precision[i] = tp[i] / (i+1)], and [recall[i] = tp[i] / totalGroundTruth]
    when [totalGroundTruth > 0] and [recall[i] = 0.0] otherwise. The function
    has no store to act on: it neither logs nor assigns an attribute. *)
Theorem get_precision_recall_list_total (tp_list : list Z) (ground_truth_objects_num : Z) :
  Forall Spec.convertible tp_list →
  Spec.convertible (len tp_list) →
  Spec.convertible ground_truth_objects_num →
  ∃ precision recall,
    Ap.get_precision_recall_list tp_list ground_truth_objects_num
    = Return (precision, recall)
    ∧ length precision = length tp_list
    ∧ length recall = length tp_list
    ∧ ∀ (i : nat) (tp_i : Z), tp_list !! i = Some tp_i →
        precision !! i = Some (Z2float tp_i / Z2float (Z.of_nat i + 1))%float
        ∧ recall !! i =
            Some (if bool_decide (ground_truth_objects_num > 0)
                  then (Z2float tp_i / Z2float ground_truth_objects_num)%float
                  else 0%float).
Proof. apply get_precision_recall_list_returns. Qed.

(** The instance of C8 on the counts of the scenario, with four ground-truth
    objects. *)
Lemma get_precision_recall_list_total_witness :
  ∃ precision recall,
    Ap.get_precision_recall_list [1; 1; 2; 3] 4 = Return (precision, recall)
    ∧ length precision = 4%nat
    ∧ length recall = 4%nat
    ∧ ∀ (i : nat) (tp_i : Z), [1; 1; 2; 3] !! i = Some tp_i →
        precision !! i = Some (Z2float tp_i / Z2float (Z.of_nat i + 1))%float
        ∧ recall !! i =
            Some (if bool_decide (4 > 0)
                  then (Z2float tp_i / Z2float 4)%float
                  else 0%float).
Proof.
  apply (get_precision_recall_list_total [1; 1; 2; 3] 4).
  - repeat constructor; by vm_compute.
  - by vm_compute.
  - by vm_compute.
Defined.

(* ===================================================================== *)
(** ** The AP value *)
(* ===================================================================== *)

(** The invariant rule for [for i in reversed(range(a, b))]. *)
Lemma for_in_reversed_range_invariant {S} (I : Z → S → Prop) (a b : Z)
    (body : Z → S → outcome S) (s : S) :
  a ≤ b →
  I b s →
  (∀ i s, a ≤ i < b → I (i + 1) s → ∃ s', body i s = Return s' ∧ I i s') →
  ∃ s', for_in (reverse (range a b)) body s = Return s' ∧ I a s'.
Proof.
  intros Hab. remember (Z.to_nat (b - a)) as n eqn:Hn.
  revert b s Hab Hn. induction n as [|n IH]; intros b s Hab Hn Hb Hstep.
  - assert (b = a) as -> by lia. rewrite range_nil by lia. by exists s.
  - replace b with ((b - 1) + 1) by lia. rewrite range_snoc by lia.
    rewrite reverse_snoc. simpl.
    destruct (Hstep (b - 1) s) as (s1 & -> & Hs1);
      [lia|by replace (b - 1 + 1) with b by lia|]. simpl.
    apply IH; [lia|lia|done|]. intros i s' Hi. apply Hstep. lia.
Qed.

Lemma envelope_step_nonempty env sample :
  env.1 ≠ [] → length env.1 = length env.2 →
  (Spec.envelope_step env sample).1 ≠ []
  ∧ length (Spec.envelope_step env sample).1 = length (Spec.envelope_step env sample).2.
Proof.
  intros Hne Hlen. unfold Spec.envelope_step.
  destruct (_ <? _)%float; [|done]. simpl. rewrite !length_app, Hlen.
  split; [|done]. by destruct (env.1).
Qed.

(** The sum loop of [_calculate_ap] on an envelope of [m + 1] points. *)
Lemma riemann_sum_loop (envelope envelope_recall : list float) :
  envelope ≠ [] →
  length envelope = length envelope_recall →
  for_in (range 0 (len envelope - 1))
    (λ i (ap : float),
       precision_i ← getitem envelope i;
       recall_i ← getitem envelope_recall i;
       recall_next ← getitem envelope_recall (i + 1);
       let score := (precision_i * (recall_i - recall_next))%float in
       mret (ap + score)%float)
    0%float
  = Return (Spec.riemann_sum 0%float envelope envelope_recall).
Proof.
  intros Hne Hlen.
  set (I := λ (k : Z) (sum : float),
    Spec.riemann_sum sum (drop (Z.to_nat k) envelope) (drop (Z.to_nat k) envelope_recall)
    = Spec.riemann_sum 0%float envelope envelope_recall).
  assert (0 < length envelope)%nat as Hpos by (destruct envelope; [done|simpl; lia]).
  match goal with
  | |- context [for_in _ ?b] => set (body := b)
  end.
  destruct (for_in_range_invariant I 0 (len envelope - 1) body 0%float)
    as (sum & -> & Hsum).
  - unfold len. lia.
  - done.
  - intros j sum Hj Hinv. unfold len in Hj.
    assert (∃ k : nat, j = Z.of_nat k) as [k ->] by (exists (Z.to_nat j); lia).
    destruct (lookup_lt_is_Some_2 envelope k) as [p Hp]; [lia|].
    destruct (lookup_lt_is_Some_2 envelope_recall k) as [r Hr]; [lia|].
    destruct (lookup_lt_is_Some_2 envelope_recall (S k)) as [r' Hr']; [lia|].
    exists (sum + p * (r - r'))%float. split.
    + unfold body. rewrite (getitem_lookup _ _ _ Hp). cbn [mbind outcome_bind].
      rewrite (getitem_lookup _ _ _ Hr). cbn [mbind outcome_bind].
      replace (Z.of_nat k + 1) with (Z.of_nat (S k)) by lia.
      by rewrite (getitem_lookup _ _ _ Hr').
    + unfold I in *. rewrite Nat2Z.id in Hinv.
      replace (Z.to_nat (Z.of_nat k + 1)) with (S k) by lia.
      rewrite (drop_S _ _ _ Hp), (drop_S _ _ _ Hr), (drop_S _ _ _ Hr') in Hinv.
      by rewrite (drop_S _ _ _ Hr').
  - f_equal. unfold I in Hsum. rewrite <- Hsum. unfold len.
    replace (Z.to_nat (Z.of_nat (length envelope) - 1)) with (length envelope - 1)%nat by lia.
    destruct (lookup_lt_is_Some_2 envelope (length envelope - 1)) as [p Hp]; [lia|].
    destruct (lookup_lt_is_Some_2 envelope_recall (length envelope - 1)) as [r Hr]; [lia|].
    rewrite (drop_S _ _ _ Hp), (drop_S _ _ _ Hr).
    replace (S (length envelope - 1)) with (length envelope_recall) by lia.
    by rewrite drop_all.
Qed.

(** [_calculate_ap] on the samples of a curve, given as (precision, recall)
    pairs. *)
Lemma calculate_ap_samples (samples : list (float * float)) :
  samples ≠ [] →
  Ap._calculate_ap samples.*1 samples.*2
  = Return (Spec.average_precision samples.*1 samples.*2).
Proof.
  intros Hne. destruct (exists_last Hne) as (earlier & [p_last r_last] & ->).
  unfold Spec.average_precision, Spec.envelope.
  rewrite zip_fst_snd, reverse_snoc, !fmap_app. simpl.
  unfold Ap._calculate_ap.
  rewrite bool_decide_eq_false_2 by (unfold len; rewrite length_app; simpl; lia).
  rewrite !getitem_last. cbn [mbind outcome_bind].
  set (precision_list := earlier.*1 ++ [p_last]).
  set (recall_list := earlier.*2 ++ [r_last]).
  set (start := ([p_last], [r_last])).
  replace (len recall_list - 1) with (len earlier)
    by (unfold recall_list, len; rewrite length_app, length_fmap; simpl; lia).
  set (I := λ (k : Z) (s : list float * list float),
    s.1 ≠ [] ∧ length s.1 = length s.2
    ∧ s = foldl Spec.envelope_step start (reverse (drop (Z.to_nat k) earlier))).
  match goal with
  | |- context [for_in _ ?b start] => set (body := b)
  end.
  destruct (for_in_reversed_range_invariant I 0 (len earlier) body start)
    as ([envelope envelope_recall] & -> & Hnonempty & Hlen & Henv).
  - apply len_nonneg.
  - unfold I, len. rewrite Nat2Z.id, drop_all. done.
  - intros j s Hj (Hs & Hlen & Hfold). unfold len in Hj.
    assert (∃ k : nat, j = Z.of_nat k) as [k ->] by (exists (Z.to_nat j); lia).
    destruct (lookup_lt_is_Some_2 earlier k) as [[p r] Hk]; [lia|].
    assert (precision_list !! k = Some p) as Hp.
    { unfold precision_list. rewrite lookup_app_l by (rewrite length_fmap; lia).
      by rewrite list_lookup_fmap, Hk. }
    assert (recall_list !! k = Some r) as Hr.
    { unfold recall_list. rewrite lookup_app_l by (rewrite length_fmap; lia).
      by rewrite list_lookup_fmap, Hk. }
    exists (Spec.envelope_step s (p, r)). split.
    + unfold body, Spec.envelope_step. destruct s as [envelope envelope_recall].
      cbn [fst snd] in *. rewrite (getitem_lookup _ _ _ Hp).
      cbn [mbind outcome_bind].
      rewrite (getitem_last_default envelope 0%float Hs).
      cbn [mbind outcome_bind].
      destruct (_ <? _)%float; [|done].
      by rewrite (getitem_lookup _ _ _ Hr).
    + destruct (envelope_step_nonempty s (p, r) Hs Hlen) as [Hs' Hlen'].
      unfold I. split_and!; [done|done|].
      rewrite Nat2Z.id. rewrite (drop_S _ _ _ Hk), reverse_cons, foldl_snoc.
      f_equal. rewrite Hfold. by replace (Z.to_nat (Z.of_nat k + 1)) with (S k) by lia.
  - cbn [fst snd] in *. change (Z.to_nat 0) with 0%nat in Henv.
    rewrite drop_0 in Henv. rewrite <- Henv. cbn [fst snd mbind outcome_bind].
    rewrite (getitem_last_default envelope 0%float Hnonempty).
    cbn [mbind outcome_bind]. unfold append.
    apply riemann_sum_loop.
    + by destruct envelope.
    + rewrite !length_app. simpl. lia.
Qed.

(** [_calculate_ap] on the parallel lists of a curve. *)
Lemma calculate_ap_parallel (precision recall : list float) :
  precision ≠ [] →
  length precision = length recall →
  Ap._calculate_ap precision recall = Return (Spec.average_precision precision recall).
Proof.
  intros Hne Hlen.
  rewrite <- (fst_zip precision recall) at 1 2 by lia.
  rewrite <- (snd_zip precision recall) at 2 4 by lia.
  apply calculate_ap_samples.
  destruct precision, recall; done.
Qed.

(** C4: on precision and recall lists that are not empty (the parallel lists
    of one curve, so of one length) the AP computation returns the sum, over
    consecutive pairs of the backward interpolated-precision envelope of the
    specification, of [envelope[k] * (envelopeRecall[k] - envelopeRecall[k+1])];
    for precision [1.0, 0.5, 0.667, 0.75] and recall [0.25, 0.25, 0.5, 0.75]
    it returns exactly 0.625. Floats are binary64 and the sum is taken in the
    order of the envelope, starting from 0.0. *)
Theorem calculate_ap_envelope :
  (∀ precision recall : list float,
     precision ≠ [] →
     length precision = length recall →
     Ap._calculate_ap precision recall
     = Return (Spec.average_precision precision recall))
  ∧ Ap._calculate_ap [1.0; 0.5; 0.667; 0.75]%float [0.25; 0.25; 0.5; 0.75]%float
    = Return 0.625%float.
Proof.
  split.
  - intros precision recall Hne Hlen. by apply calculate_ap_parallel.
  - unfold Ap._calculate_ap. by vm_compute.
Qed.

(** The instance of C4 on the curve of the scenario: the envelope is
    [0.75, 1.0, 1.0] at recalls [0.75, 0.25, 0.0]. *)
Lemma calculate_ap_envelope_witness :
  Spec.envelope [1.0; 0.5; 0.667; 0.75]%float [0.25; 0.25; 0.5; 0.75]%float
  = ([0.75; 1.0; 1.0]%float, [0.75; 0.25; 0.0]%float)
  ∧ Ap._calculate_ap [1.0; 0.5; 0.667; 0.75]%float [0.25; 0.25; 0.5; 0.75]%float
    = Return (Spec.average_precision
                [1.0; 0.5; 0.667; 0.75]%float [0.25; 0.25; 0.5; 0.75]%float).
Proof.
  split; [by vm_compute|].
  apply (proj1 calculate_ap_envelope); [done|reflexivity].
Defined.

(* ===================================================================== *)
(** ** Running store-passing code *)
(* ===================================================================== *)

Lemma Py_bind_Return {S A B} (m : Py S A) (f : A → Py S B) (s s' : S) (a : A) :
  m s = (s', Return a) → (m ≫= f) s = f a s'.
Proof. intros Hm. unfold mbind, Py_bind. by rewrite Hm. Qed.

Lemma Py_bind_Raise {S A B} (m : Py S A) (f : A → Py S B) (s s' : S) (e : exception) :
  m s = (s', Raise e) → (m ≫= f) s = (s', Raise e).
Proof. intros Hm. unfold mbind, Py_bind. by rewrite Hm. Qed.

(* ===================================================================== *)
(** ** The mean over the labels *)
(* ===================================================================== *)

Section mean_average_precision.
Context `{!AwmlEvaluation}.
Implicit Types (object_results : list DynamicObjectWithResult).
Implicit Types (ground_truth_objects : list DynamicObject).
Implicit Types (target_labels : list AutowareLabel) (aps : list Ap.t).

(** An [Ap] that was constructed holds the configuration it was given. *)
Lemma Ap_init_configuration object_results ground_truth_objects target_labels
    matching_mode matching_threshold (log log' : Log) (a : Ap.t) :
  Ap.__init__ object_results ground_truth_objects target_labels
    matching_mode matching_threshold log = (log', Return a) →
  Ap.target_labels a = target_labels
  ∧ Ap.matching_mode a = matching_mode
  ∧ Ap.matching_threshold a = matching_threshold.
Proof.
  unfold Ap.__init__, mbind, Py_bind, pure.
  destruct (Ap._calculate_tp_fp _ _ _) as [log1 [[tp fp]|e]]; [|done].
  destruct (Ap.get_precision_recall_list _ _) as [[precision recall]|e]; [|done].
  destruct (Ap._calculate_ap _ _) as [ap|e]; [|done].
  by intros [= _ <-].
Qed.

(** The loop of [Map.__init__] that constructs the [Ap] objects. *)
Lemma Map_init_aps_loop object_results ground_truth_objects target_labels
    matching_mode matching_threshold (log log' : Log) aps0 aps :
  mapM (λ target_label,
          Ap.__init__ object_results ground_truth_objects [target_label]
            matching_mode matching_threshold) target_labels log
  = (log', Return aps) →
  for_in target_labels
    (λ target_label (aps : list Ap.t),
       ap_ ← Ap.__init__ object_results ground_truth_objects [target_label]
               matching_mode matching_threshold;
       mret (append aps ap_))
    aps0 log
  = (log', Return (aps0 ++ aps))
  ∧ Forall2 (λ target_label a, Ap.target_labels a = [target_label]) target_labels aps.
Proof.
  revert log aps0 aps. induction target_labels as [|target_label target_labels IH];
    intros log aps0 aps; simpl.
  - intros [= <- <-]. by rewrite app_nil_r.
  - intros Hm.
    destruct (Ap.__init__ object_results ground_truth_objects [target_label]
                matching_mode matching_threshold log) as [log1 [a|e]] eqn:Ha;
      [|by rewrite (Py_bind_Raise _ _ _ _ _ Ha) in Hm].
    rewrite (Py_bind_Return _ _ _ _ _ Ha) in Hm.
    destruct (@mapM (Py Log) _ _ _ _
                (λ target_label,
                   Ap.__init__ object_results ground_truth_objects [target_label]
                     matching_mode matching_threshold) target_labels log1)
      as [log2 [aps'|e]] eqn:Hrest;
      [|by rewrite (Py_bind_Raise _ _ _ _ _ Hrest) in Hm].
    rewrite (Py_bind_Return _ _ _ _ _ Hrest) in Hm. injection Hm as <- <-.
    destruct (IH log1 (append aps0 a) aps' Hrest) as [Hrun Hlabels].
    split.
    + rewrite (Py_bind_Return _ _ log log1 (append aps0 a))
        by (by rewrite (Py_bind_Return _ _ _ _ _ Ha)).
      rewrite Hrun. unfold append. by rewrite <- app_assoc.
    + constructor; [|done]. by apply Ap_init_configuration in Ha as (? & _).
Qed.

(** The loop of [Map.__init__] that sums the AP values. *)
Lemma Map_init_sum_loop aps (sum : float) (log : Log) :
  for_in (M:=Py Log) aps (λ ap (sum_ap : float), mret (sum_ap + Ap.ap ap)%float) sum log
  = (log, Return (foldl (λ sum a, (sum + Ap.ap a)%float) sum aps)).
Proof. revert sum. induction aps as [|a aps IH]; intros sum; [done|]. simpl. apply IH. Qed.

(** The mean: when the list of configured labels is not empty, and every
    per-label [Ap] construction returns, mAP construction returns a [Map] that
    holds one [Ap] per label, in label order, each constructed with the
    one-label target set [[label]]; its mean is the sum of the AP values
    divided by the number of configured labels, whatever the ground-truth
    counts. In particular two labels with AP values 0.625 and 0.0 give
    0.3125. *)
Lemma Map_init_mean object_results ground_truth_objects target_labels
    matching_mode matching_threshold (log log' : Log) aps :
  target_labels ≠ [] →
  len target_labels ≤ sys_maxsize →
  mapM (λ target_label,
          Ap.__init__ object_results ground_truth_objects [target_label]
            matching_mode matching_threshold) target_labels log
  = (log', Return aps) →
  ∃ m : Map.t,
    Map.__init__ object_results ground_truth_objects target_labels
      matching_mode matching_threshold log = (log', Return m)
    ∧ Map.aps m = Some aps
    ∧ Forall2 (λ target_label a, Ap.target_labels a = [target_label]) target_labels aps
    ∧ Map.map m = Some (Spec.sum_ap aps / Z2float (len target_labels))%float
    ∧ (Ap.ap <$> aps = [0.625; 0.0]%float → Map.map m = Some 0.3125%float).
Proof.
  intros Hne Hlen Haps.
  destruct (Map_init_aps_loop _ _ _ _ _ _ _ [] _ Haps) as [Hloop Hlabels].
  exists {|
    Map.map_config := Some {|
      MapConfig.target_labels := target_labels;
      MapConfig.matching_mode := matching_mode;
      MapConfig.matching_threshold := matching_threshold |};
    Map.aps := Some aps;
    Map.map := Some (Spec.sum_ap aps / Z2float (len target_labels))%float |}.
  split; [|split_and!; [reflexivity|done|reflexivity|]].
  - unfold Map.__init__. rewrite truthy_nonempty by done. cbn [negb MapConfig.target_labels].
    rewrite (Py_bind_Return _ _ _ _ _ Hloop).
    rewrite (Py_bind_Return _ _ _ _ _ (Map_init_sum_loop _ _ _)).
    unfold pure. rewrite truediv_nonzero; [reflexivity| |].
    + apply sys_maxsize_convertible. pose proof (len_nonneg target_labels). lia.
    + destruct target_labels; [done|]. unfold len. simpl. lia.
  - cbn [Map.map]. intros Hvalues.
    apply Forall2_length in Hlabels.
    destruct aps as [|a1 [|a2 [|? ?]]]; try done.
    simpl in Hvalues. injection Hvalues as H1 H2.
    unfold Spec.sum_ap, len. rewrite Hlabels. simpl. rewrite H1, H2. by vm_compute.
Qed.

(** C7: with an empty list of target labels, mAP construction logs one
    warning and returns at once: it does not raise, and the object it leaves
    has no configuration, no AP results and no mAP value. *)
Theorem Map_init_no_labels object_results ground_truth_objects
    matching_mode matching_threshold (log : Log) :
  Map.__init__ object_results ground_truth_objects [] matching_mode matching_threshold log
  = (log ++ ["target_labels is empty ([])"],
     Return {| Map.map_config := None; Map.aps := None; Map.map := None |}).
Proof.
  unfold Map.__init__. change (truthy (@nil AutowareLabel)) with false. cbn [negb].
  by rewrite (Py_bind_Return (warning _) _ log (log ++ ["target_labels is empty ([])"]) ()).
Qed.

End mean_average_precision.

(** The mean in the scenario: the car label has AP 0.625, the pedestrian label
    has a prediction, no ground truth and AP 0.0. *)
Lemma Map_init_mean_scenario :
  ∃ m : Map.t,
    @Map.__init__ Scenario.awml Scenario.object_results Scenario.ground_truth_objects
      [Scenario.CAR; Scenario.PEDESTRIAN] IOU3d 0.5%float [] = ([], Return m)
    ∧ (Ap.ground_truth_objects_num <$> default [] (Map.aps m)) = [4; 0]
    ∧ (Ap.ap <$> default [] (Map.aps m)) = [0.625; 0.0]%float
    ∧ Map.map m = Some 0.3125%float.
Proof.
  edestruct (@Map_init_mean Scenario.awml Scenario.object_results
               Scenario.ground_truth_objects [Scenario.CAR; Scenario.PEDESTRIAN]
               IOU3d 0.5%float [])
    as (m & Hrun & Haps & _ & _ & Hparticular);
    [done|by vm_compute|vm_compute; reflexivity|].
  exists m. split; [exact Hrun|]. rewrite Haps.
  split; [reflexivity|]. split; [reflexivity|]. apply Hparticular. reflexivity.
Defined.

(* ===================================================================== *)
(** ** What the detection code does to the log *)
(* ===================================================================== *)

Lemma log_appending_ret {A} (a : A) : log_appending (mret a).
Proof. intros log. unfold mret, Py_ret. simpl. by rewrite app_nil_r. Qed.

Lemma log_appending_pure {A} (o : outcome A) : log_appending (pure o).
Proof. intros log. unfold pure. simpl. by rewrite app_nil_r. Qed.

Lemma log_appending_warning (msg : string) : log_appending (warning msg).
Proof. done. Qed.

Lemma log_appending_bind {A B} (m : Py Log A) (f : A → Py Log B) :
  log_appending m → (∀ a, log_appending (f a)) → log_appending (m ≫= f).
Proof.
  intros Hm Hf log. unfold mbind, Py_bind. rewrite (Hm log).
  destruct (m []) as [w [a|e]]; simpl; [|done].
  rewrite (Hf a (log ++ w)), (Hf a w). simpl. by rewrite app_assoc.
Qed.

Lemma log_appending_for_in {A B} (xs : list B) (body : B → A → Py Log A) (s : A) :
  (∀ x s, log_appending (body x s)) → log_appending (for_in xs body s).
Proof.
  intros Hbody. revert s. induction xs as [|x xs IH]; intros s; simpl.
  - apply log_appending_ret.
  - apply log_appending_bind; [apply Hbody|apply IH].
Qed.

Section detection_log.
Context `{!AwmlEvaluation}.

Lemma calculate_tp_fp_log_appending object_results (ground_truth_objects_num : Z) :
  log_appending (Ap._calculate_tp_fp object_results ground_truth_objects_num).
Proof.
  unfold Ap._calculate_tp_fp. destruct (_ && _).
  - apply log_appending_bind; [apply log_appending_warning|].
    intros _. apply log_appending_ret.
  - apply log_appending_pure.
Qed.

Lemma Ap_init_log_appending object_results ground_truth_objects target_labels
    matching_mode matching_threshold :
  log_appending (Ap.__init__ object_results ground_truth_objects target_labels
                   matching_mode matching_threshold).
Proof.
  unfold Ap.__init__.
  apply log_appending_bind; [apply calculate_tp_fp_log_appending|]. intros [tp fp].
  apply log_appending_bind; [apply log_appending_pure|]. intros [precision recall].
  apply log_appending_bind; [apply log_appending_pure|]. intros ap.
  apply log_appending_ret.
Qed.

Lemma Map_init_log_appending object_results ground_truth_objects target_labels
    matching_mode matching_threshold :
  log_appending (Map.__init__ object_results ground_truth_objects target_labels
                   matching_mode matching_threshold).
Proof.
  unfold Map.__init__. destruct (negb _).
  - apply log_appending_bind; [apply log_appending_warning|].
    intros _. apply log_appending_ret.
  - apply log_appending_bind.
    { apply log_appending_for_in. intros target_label aps.
      apply log_appending_bind; [apply Ap_init_log_appending|].
      intros ap_. apply log_appending_ret. }
    intros aps. apply log_appending_bind.
    { apply log_appending_for_in. intros ap sum. apply log_appending_ret. }
    intros sum. apply log_appending_bind; [apply log_appending_pure|].
    intros map. apply log_appending_ret.
Qed.

End detection_log.

(* ===================================================================== *)
(** ** What MetricsScore does to its list of results *)
(* ===================================================================== *)

Section metrics_score.
Context `{!AwmlEvaluation}.
Implicit Types (self : MetricsScore.t) (log : Log).
Implicit Types (object_results : list DynamicObjectWithResult).
Implicit Types (ground_truth_objects : list DynamicObject).

Lemma maps_appending_fresh {A} (m : Py MetricsScore.Store A) (config : MetricsScoreConfig.t) :
  maps_appending m →
  MetricsScore.config (m (MetricsScore.__init__ config, [])).1.1 = config.
Proof.
  intros Hm. specialize (Hm (MetricsScore.__init__ config) []).
  apply (f_equal (λ r, MetricsScore.config r.1.1)) in Hm. exact Hm.
Qed.

Lemma maps_appending_ret {A} (a : A) : maps_appending (mret a).
Proof.
  intros [config maps] log. unfold mret, Py_ret. simpl. by rewrite !app_nil_r.
Qed.

Lemma maps_appending_self_config : maps_appending MetricsScore.self_config.
Proof.
  intros [config maps] log. unfold MetricsScore.self_config. simpl.
  by rewrite !app_nil_r.
Qed.

Lemma maps_appending_self_maps_append (map_ : Map.t) :
  maps_appending (MetricsScore.self_maps_append map_).
Proof. intros [config maps] log. unfold MetricsScore.self_maps_append. simpl.
  by rewrite app_nil_r. Qed.

Lemma maps_appending_within {A} (m : Py Log A) :
  log_appending m → maps_appending (within m).
Proof.
  intros Hm [config maps] log. unfold within. simpl. rewrite (Hm log).
  destruct (m []) as [w o]. simpl. by rewrite app_nil_r.
Qed.

Lemma maps_appending_bind {A B} (m : Py MetricsScore.Store A)
    (f : A → Py MetricsScore.Store B) :
  maps_appending m → (∀ a, maps_appending (f a)) → maps_appending (m ≫= f).
Proof.
  intros Hm Hf self log.
  pose proof (maps_appending_fresh m (MetricsScore.config self) Hm) as Hconfig.
  unfold mbind, Py_bind. rewrite (Hm self log). cbv zeta.
  destruct (m (MetricsScore.__init__ (MetricsScore.config self), []))
    as [[self1 log1] [a|e]]; simpl in *; [|done].
  rewrite (Hf a _ (log ++ log1)), (Hf a self1 log1). simpl. rewrite Hconfig.
  by rewrite !app_assoc.
Qed.

Lemma maps_appending_for_in {A B} (xs : list B)
    (body : B → A → Py MetricsScore.Store A) (s : A) :
  (∀ x s, maps_appending (body x s)) → maps_appending (for_in xs body s).
Proof.
  intros Hbody. revert s. induction xs as [|x xs IH]; intros s; simpl.
  - apply maps_appending_ret.
  - apply maps_appending_bind; [apply Hbody|apply IH].
Qed.

(** One of the three loops of [_evaluation_detection]. *)
Lemma detection_loop_maps_appending object_results ground_truth_objects
    target_labels matching_mode (thresholds : list float) :
  maps_appending
    (for_in thresholds
       (λ threshold_ _,
          map_ ← within (Map.__init__ object_results ground_truth_objects
                           target_labels matching_mode threshold_);
          MetricsScore.self_maps_append map_)
       ()).
Proof.
  apply maps_appending_for_in. intros threshold_ _.
  apply maps_appending_bind.
  - apply maps_appending_within, Map_init_log_appending.
  - apply maps_appending_self_maps_append.
Qed.

Lemma evaluation_detection_maps_appending object_results ground_truth_objects :
  maps_appending (MetricsScore._evaluation_detection object_results ground_truth_objects).
Proof.
  unfold MetricsScore._evaluation_detection.
  apply maps_appending_bind; [apply maps_appending_self_config|]. intros config.
  apply maps_appending_bind.
  { destruct (truthy _); [apply detection_loop_maps_appending|apply maps_appending_ret]. }
  intros _. apply maps_appending_bind.
  { destruct (truthy _); [apply detection_loop_maps_appending|apply maps_appending_ret]. }
  intros _.
  destruct (truthy _); [apply detection_loop_maps_appending|apply maps_appending_ret].
Qed.

Lemma evaluate_maps_appending object_results ground_truth_objects :
  maps_appending (MetricsScore.evaluate object_results ground_truth_objects).
Proof.
  unfold MetricsScore.evaluate.
  apply maps_appending_bind; [apply evaluation_detection_maps_appending|]. intros _.
  apply maps_appending_bind; [apply maps_appending_ret|]. intros _.
  apply maps_appending_ret.
Qed.

(** The frame condition of [evaluate] over a sequence of calls: whatever each
    call ended in, the configuration is the same and the list is the list
    before the calls followed by what each call leaves in a fresh object, in
    the order of the calls. Which results a call leaves in a fresh object is
    the matter of the lemmas on [_evaluation_detection] below. *)
Lemma store_after_calls_appends (frames : list Frame) self log :
  store_after_calls frames (self, log)
  = ({| MetricsScore.config := MetricsScore.config self;
        MetricsScore.maps :=
          MetricsScore.maps self
          ++ concat ((λ frame, (fresh_call (MetricsScore.config self) frame).1) <$> frames) |},
     log ++ concat ((λ frame, (fresh_call (MetricsScore.config self) frame).2) <$> frames))
  ∧ ∀ (frame : Frame) (k : nat),
      (store_after_calls (replicate k frame) (self, log)).1
      = {| MetricsScore.config := MetricsScore.config self;
           MetricsScore.maps :=
             MetricsScore.maps self
             ++ concat (replicate k (fresh_call (MetricsScore.config self) frame).1) |}.
Proof.
  assert (∀ frames self log,
    store_after_calls frames (self, log)
    = ({| MetricsScore.config := MetricsScore.config self;
          MetricsScore.maps :=
            MetricsScore.maps self
            ++ concat ((λ frame, (fresh_call (MetricsScore.config self) frame).1) <$> frames) |},
       log ++ concat ((λ frame, (fresh_call (MetricsScore.config self) frame).2) <$> frames)))
    as Hcalls.
  { clear. intros frames. induction frames as [|frame frames IH]; intros [config maps] log.
    - simpl. by rewrite !app_nil_r.
    - unfold store_after_calls. simpl.
      rewrite (evaluate_maps_appending frame.1 frame.2 _ log). cbv zeta. cbn [fst snd].
      etrans; [apply IH|]. unfold fresh_call. simpl. by rewrite !app_assoc. }
  split; [apply Hcalls|].
  intros frame k. rewrite Hcalls. cbn [fst]. by rewrite fmap_replicate.
Qed.

(** C1, on the code: with no center-distance threshold configured the third
    block of [_evaluation_detection] is skipped, because it is guarded by the
    center-distance thresholds and not by the plane-distance thresholds. With
    no IoU threshold either, nothing is constructed, however many
    plane-distance thresholds are configured. *)
Theorem evaluation_detection_skips_plane_distance object_results ground_truth_objects
    (target_labels : list AutowareLabel) (map_thresholds_plane_distance : list float)
    (maps : list Map.t) log :
  let self :=
    {| MetricsScore.config :=
         {| MetricsScoreConfig.target_labels := target_labels;
            MetricsScoreConfig.map_thresholds_center_distance := [];
            MetricsScoreConfig.map_thresholds_iou := [];
            MetricsScoreConfig.map_thresholds_plane_distance :=
              map_thresholds_plane_distance |};
       MetricsScore.maps := maps |} in
  MetricsScore._evaluation_detection object_results ground_truth_objects (self, log)
  = ((self, log), Return ()).
Proof.
  intros self. unfold MetricsScore._evaluation_detection.
  erewrite Py_bind_Return; [|reflexivity]. cbn [fst MetricsScore.config].
  cbn [MetricsScoreConfig.map_thresholds_center_distance
       MetricsScoreConfig.map_thresholds_iou].
  change (truthy (@nil float)) with false. cbv iota.
  by do 2 (erewrite Py_bind_Return; [|reflexivity]).
Qed.

(** A call of [evaluate] with no center-distance and no IoU threshold
    configured returns and leaves the store as it was. *)
Lemma evaluate_no_center_no_iou object_results ground_truth_objects
    (target_labels : list AutowareLabel) (map_thresholds_plane_distance : list float)
    (maps : list Map.t) log :
  let self :=
    {| MetricsScore.config :=
         {| MetricsScoreConfig.target_labels := target_labels;
            MetricsScoreConfig.map_thresholds_center_distance := [];
            MetricsScoreConfig.map_thresholds_iou := [];
            MetricsScoreConfig.map_thresholds_plane_distance :=
              map_thresholds_plane_distance |};
       MetricsScore.maps := maps |} in
  MetricsScore.evaluate object_results ground_truth_objects (self, log)
  = ((self, log), Return ()).
Proof.
  intros self. unfold MetricsScore.evaluate.
  erewrite Py_bind_Return; [reflexivity|].
  unfold MetricsScore._evaluation_detection.
  erewrite Py_bind_Return; [|reflexivity]. cbn [fst MetricsScore.config].
  cbn [MetricsScoreConfig.map_thresholds_center_distance
       MetricsScoreConfig.map_thresholds_iou].
  change (truthy (@nil float)) with false. cbv iota.
  by do 2 (erewrite Py_bind_Return; [|reflexivity]).
Qed.

(** C10, on the code: the calls of [evaluate] do not always leave full sets
    of per-(mode, threshold) results. With plane-distance thresholds
    configured and no center-distance and no IoU threshold, every call skips
    the plane-distance block (its guard reads the center-distance thresholds,
    the defect of C1), so after any number of calls, on any frames, the store
    is exactly as it was: not one result is appended for the configured
    (plane distance, threshold) pairs. *)
Theorem evaluate_calls_skip_plane_distance (frames : list Frame)
    (target_labels : list AutowareLabel) (map_thresholds_plane_distance : list float)
    (maps : list Map.t) log :
  let self :=
    {| MetricsScore.config :=
         {| MetricsScoreConfig.target_labels := target_labels;
            MetricsScoreConfig.map_thresholds_center_distance := [];
            MetricsScoreConfig.map_thresholds_iou := [];
            MetricsScoreConfig.map_thresholds_plane_distance :=
              map_thresholds_plane_distance |};
       MetricsScore.maps := maps |} in
  store_after_calls frames (self, log) = (self, log).
Proof.
  intros self. induction frames as [|frame frames IH]; [done|].
  change (store_after_calls (frame :: frames) (self, log))
    with (store_after_calls frames
            (MetricsScore.evaluate frame.1 frame.2 (self, log)).1).
  unfold self at 1.
  by rewrite (evaluate_no_center_no_iou frame.1 frame.2 target_labels
                map_thresholds_plane_distance maps log).
Qed.

End metrics_score.

Section detection_results.
Context `{!AwmlEvaluation}.
Implicit Types (self : MetricsScore.t) (log : Log).
Implicit Types (object_results : list DynamicObjectWithResult).
Implicit Types (ground_truth_objects : list DynamicObject).

(** One loop of [_evaluation_detection] appends the [Map] of each threshold,
    in the order of the thresholds, when each construction returns. *)
Lemma detection_loop_results object_results ground_truth_objects target_labels
    matching_mode (thresholds : list float) self log log' (new : list Map.t) :
  mapM (λ threshold_,
          Map.__init__ object_results ground_truth_objects target_labels
            matching_mode threshold_) thresholds log
  = (log', Return new) →
  for_in thresholds
    (λ threshold_ _,
       map_ ← within (Map.__init__ object_results ground_truth_objects
                        target_labels matching_mode threshold_);
       MetricsScore.self_maps_append map_)
    () (self, log)
  = (({| MetricsScore.config := MetricsScore.config self;
         MetricsScore.maps := MetricsScore.maps self ++ new |}, log'), Return ()).
Proof.
  revert self log new. induction thresholds as [|threshold_ thresholds IH];
    intros [config maps] log new; simpl.
  - intros [= <- <-]. by rewrite app_nil_r.
  - intros Hm.
    destruct (Map.__init__ object_results ground_truth_objects target_labels
                matching_mode threshold_ log) as [log1 [map_|e]] eqn:Hmap;
      [|by rewrite (Py_bind_Raise _ _ _ _ _ Hmap) in Hm].
    rewrite (Py_bind_Return _ _ _ _ _ Hmap) in Hm.
    destruct (@mapM (Py Log) _ _ _ _
                (λ threshold_,
                   Map.__init__ object_results ground_truth_objects target_labels
                     matching_mode threshold_) thresholds log1)
      as [log2 [new'|e]] eqn:Hrest;
      [|by rewrite (Py_bind_Raise _ _ _ _ _ Hrest) in Hm].
    rewrite (Py_bind_Return _ _ _ _ _ Hrest) in Hm. injection Hm as <- <-.
    erewrite Py_bind_Return; last first.
    { erewrite Py_bind_Return; [reflexivity|]. unfold within. simpl. by rewrite Hmap. }
    etrans; [apply (IH _ _ _ Hrest)|]. simpl. unfold append. by rewrite <- app_assoc.
Qed.

(** What a call of [_evaluation_detection] appends when every construction
    returns: the center-distance results, then the IoU results, then the
    plane-distance results, the latter only when a center-distance threshold
    is configured. *)
Lemma evaluation_detection_results object_results ground_truth_objects
    (config : MetricsScoreConfig.t) (maps : list Map.t) log log1 log2 log3
    (center iou plane : list Map.t) :
  let construct matching_mode :=
    mapM (λ threshold_,
            Map.__init__ object_results ground_truth_objects
              (MetricsScoreConfig.target_labels config) matching_mode threshold_) in
  construct CENTERDISTANCE (MetricsScoreConfig.map_thresholds_center_distance config) log
  = (log1, Return center) →
  construct IOU3d (MetricsScoreConfig.map_thresholds_iou config) log1
  = (log2, Return iou) →
  construct PLANEDISTANCE (MetricsScoreConfig.map_thresholds_plane_distance config) log2
  = (log3, Return plane) →
  MetricsScore._evaluation_detection object_results ground_truth_objects
    ({| MetricsScore.config := config; MetricsScore.maps := maps |}, log)
  = if truthy (MetricsScoreConfig.map_thresholds_center_distance config)
    then (({| MetricsScore.config := config;
              MetricsScore.maps := maps ++ center ++ iou ++ plane |}, log3), Return ())
    else (({| MetricsScore.config := config;
              MetricsScore.maps := maps ++ iou |}, log2), Return ()).
Proof.
  intros construct Hcenter Hiou Hplane. unfold MetricsScore._evaluation_detection.
  erewrite Py_bind_Return; [|reflexivity]. cbn [fst MetricsScore.config].
  assert (∀ matching_mode thresholds self l l' new,
    construct matching_mode thresholds l = (l', Return new) →
    (if truthy thresholds
     then for_in thresholds
            (λ threshold_ _,
               map_ ← within (Map.__init__ object_results ground_truth_objects
                                (MetricsScoreConfig.target_labels config)
                                matching_mode threshold_);
               MetricsScore.self_maps_append map_) ()
     else mret ()) (self, l)
    = (({| MetricsScore.config := MetricsScore.config self;
           MetricsScore.maps := MetricsScore.maps self ++ new |}, l'), Return ()))
    as Hblock.
  { intros matching_mode thresholds self l l' new Hnew.
    destruct thresholds as [|t thresholds].
    - injection Hnew as <- <-. destruct self. simpl. by rewrite app_nil_r.
    - rewrite truthy_cons. by apply detection_loop_results. }
  erewrite Py_bind_Return; [|by apply Hblock]. cbn [MetricsScore.config MetricsScore.maps].
  erewrite Py_bind_Return; [|by apply Hblock]. cbn [MetricsScore.config MetricsScore.maps].
  destruct (MetricsScoreConfig.map_thresholds_center_distance config) as [|t thresholds].
  - injection Hcenter as <- <-. simpl. by rewrite app_nil_r.
  - rewrite truthy_cons. etrans; [by apply detection_loop_results|].
    simpl. by rewrite <- !app_assoc.
Qed.

(** X8: the results of one call of [evaluate] on a fresh object, when every
    construction returns: one [Map] per configured center-distance threshold,
    then one per IoU threshold, then, when a center-distance threshold is
    configured, one per plane-distance threshold. *)
Lemma fresh_call_results (config : MetricsScoreConfig.t) (frame : Frame)
    log1 log2 log3 (center iou plane : list Map.t) :
  let construct matching_mode :=
    mapM (λ threshold_,
            Map.__init__ frame.1 frame.2
              (MetricsScoreConfig.target_labels config) matching_mode threshold_) in
  construct CENTERDISTANCE (MetricsScoreConfig.map_thresholds_center_distance config) []
  = (log1, Return center) →
  construct IOU3d (MetricsScoreConfig.map_thresholds_iou config) log1
  = (log2, Return iou) →
  construct PLANEDISTANCE (MetricsScoreConfig.map_thresholds_plane_distance config) log2
  = (log3, Return plane) →
  (fresh_call config frame).1
  = if truthy (MetricsScoreConfig.map_thresholds_center_distance config)
    then center ++ iou ++ plane
    else iou.
Proof.
  intros construct Hcenter Hiou Hplane. unfold fresh_call, MetricsScore.evaluate.
  pose proof (evaluation_detection_results frame.1 frame.2 config [] [] log1 log2 log3
                center iou plane Hcenter Hiou Hplane) as Hrun.
  destruct (truthy _); erewrite Py_bind_Return by exact Hrun; reflexivity.
Qed.

End detection_results.

(* ===================================================================== *)
(** ** The pass/fail classifier *)
(* ===================================================================== *)

Section pass_fail.
Context `{!PerceptionEval}.
Implicit Types (object_results fp : list DynamicObjectWithPerceptionResult).
Implicit Types (critical : list ObjectType).

(** The loop that keeps the critical FP results is a filter. *)
Lemma critical_fp_loop (keep : DynamicObjectWithPerceptionResult → bool) fp kept :
  foldl (λ fp_critical_object_results fp_object_result,
           if keep fp_object_result
           then append fp_critical_object_results fp_object_result
           else fp_critical_object_results)
    kept fp
  = kept ++ List.filter keep fp.
Proof.
  revert kept. induction fp as [|r fp IH]; intros kept; simpl.
  - by rewrite app_nil_r.
  - rewrite IH. destruct (keep r); [|done]. unfold append. by rewrite <- app_assoc.
Qed.

(** C6: with [tp] and [fp] the two lists [divide_tp_fp_objects] returns, the
    classifier returns them as they are when [leave_only_critical_fp] is
    false. When it is true the TP list is still returned as it is, and the FP
    list is, in order, the FP results whose matched ground-truth object is an
    item of the critical ground-truth list; an FP result with no ground-truth
    object is never one of them, and when the critical list is [None] no FP
    result is returned at all. *)
Theorem get_tp_fp_object_results_leave_only_critical
    (frame_pass_fail_config : PerceptionPassFailConfig.t) object_results
    (critical_ground_truth_objects : option (list ObjectType)) :
  let divided :=
    divide_tp_fp_objects object_results
      (PerceptionPassFailConfig.target_labels frame_pass_fail_config)
      (PerceptionPassFailConfig.matching_mode frame_pass_fail_config)
      (PerceptionPassFailConfig.matching_threshold_list frame_pass_fail_config) in
  let result :=
    PassFailResult.get_tp_fp_object_results frame_pass_fail_config object_results
      critical_ground_truth_objects in
  (PerceptionPassFailConfig.leave_only_critical_fp frame_pass_fail_config = false →
     result = divided)
  ∧ (PerceptionPassFailConfig.leave_only_critical_fp frame_pass_fail_config = true →
       result.1 = divided.1
       ∧ (∀ critical, critical_ground_truth_objects = Some critical →
            result.2 =
              List.filter
                (λ r, match ground_truth_object r with
                      | Some g => existsb (same_object g) critical
                      | None => false
                      end)
                divided.2)
       ∧ (critical_ground_truth_objects = None → result.2 = [])).
Proof.
  intros divided result. subst result. unfold PassFailResult.get_tp_fp_object_results.
  fold divided. destruct divided as [tp fp].
  split; intros ->; [done|]. cbn [negb fst snd]. split_and!; [done| |].
  - intros critical ->.
    exact (critical_fp_loop
             (λ r, PassFailResult.contains (ground_truth_object r) critical) fp []).
  - intros ->. etrans; [exact (critical_fp_loop (λ _, false) fp [])|].
    simpl. by induction fp.
Qed.

End pass_fail.

(** The instance of C6 in the scenario: of the three FP results only the one
    matched with object 2 is critical. *)
Lemma get_tp_fp_object_results_leave_only_critical_witness :
  @PassFailResult.get_tp_fp_object_results Scenario.perception
    (Scenario.pass_fail_config false) Scenario.perception_results (Some [2; 5]%nat)
  = ([(Some 1%nat, true)], [(Some 2%nat, false); (None, false); (Some 3%nat, false)])
  ∧ @PassFailResult.get_tp_fp_object_results Scenario.perception
      (Scenario.pass_fail_config true) Scenario.perception_results (Some [2; 5]%nat)
    = ([(Some 1%nat, true)], [(Some 2%nat, false)])
  ∧ @PassFailResult.get_tp_fp_object_results Scenario.perception
      (Scenario.pass_fail_config true) Scenario.perception_results None
    = ([(Some 1%nat, true)], []).
Proof.
  split_and!.
  - apply (proj1 (@get_tp_fp_object_results_leave_only_critical Scenario.perception
                    (Scenario.pass_fail_config false) Scenario.perception_results
                    (Some [2; 5]%nat))). reflexivity.
  - destruct (proj2 (@get_tp_fp_object_results_leave_only_critical Scenario.perception
                       (Scenario.pass_fail_config true) Scenario.perception_results
                       (Some [2; 5]%nat)) eq_refl) as (Htp & Hfp & _).
    apply injective_projections; [exact Htp|]. exact (Hfp _ eq_refl).
  - destruct (proj2 (@get_tp_fp_object_results_leave_only_critical Scenario.perception
                       (Scenario.pass_fail_config true) Scenario.perception_results
                       None) eq_refl) as (Htp & _ & Hfp).
    apply injective_projections; [exact Htp|]. exact (Hfp eq_refl).
Defined.

(** In the scenario: three calls on one frame, with one center-distance and
    one IoU threshold, leave three times the two results of a call after the
    result that was there. *)
Lemma evaluate_three_times :
  let earlier : @Map.t Scenario.awml :=
    {| Map.map_config := None; Map.aps := None; Map.map := None |} in
  ∃ center iou : @Map.t Scenario.awml,
    @fresh_call Scenario.awml Scenario.metrics_config
      (Scenario.object_results, Scenario.ground_truth_objects)
    = ([center; iou], [])
    ∧ @store_after_calls Scenario.awml
        (replicate 3 (Scenario.object_results, Scenario.ground_truth_objects))
        ({| MetricsScore.config := Scenario.metrics_config;
            MetricsScore.maps := [earlier] |}, [])
      = ({| MetricsScore.config := Scenario.metrics_config;
            MetricsScore.maps := [earlier; center; iou; center; iou; center; iou] |}, []).
Proof. intros earlier. eexists _, _. split; vm_compute; reflexivity. Qed.

(* ===================================================================== *)
(** ** When AP construction returns *)
(* ===================================================================== *)

Section average_precision.
Context `{!AwmlEvaluation}.
Implicit Types (object_results : list DynamicObjectWithResult).
Implicit Types (ground_truth_objects : list DynamicObject).
Implicit Types (target_labels : list AutowareLabel) (log : Log).

(** With no record left by the filter and a ground-truth count that is not
    zero, AP construction logs the warning and returns an AP of 0.0 with
    empty TP and FP sequences. *)
Lemma Ap_init_no_records object_results ground_truth_objects target_labels
    matching_mode matching_threshold log :
  filter_tp_objects object_results target_labels matching_mode matching_threshold = [] →
  filter_ground_truth_objects ground_truth_objects target_labels ≠ [] →
  Ap.__init__ object_results ground_truth_objects target_labels
    matching_mode matching_threshold log
  = (log ++ ["The size of object_results is 0"],
     Return {|
       Ap.target_labels := target_labels;
       Ap.matching_mode := matching_mode;
       Ap.matching_threshold := matching_threshold;
       Ap.ground_truth_objects_num :=
         len (filter_ground_truth_objects ground_truth_objects target_labels);
       Ap.tp_list := [];
       Ap.fp_list := [];
       Ap.ap := 0%float;
     |}).
Proof.
  intros Hrecords Hgt. unfold Ap.__init__. rewrite Hrecords.
  erewrite Py_bind_Return; last first.
  { apply calculate_tp_fp_no_records. unfold len.
    destruct (filter_ground_truth_objects _ _); [done|simpl; lia]. }
  reflexivity.
Qed.

(** AP construction returns whenever the filters leave a record or a
    ground-truth object, on lists of a length Python lists can have. *)
Lemma Ap_init_returns object_results ground_truth_objects target_labels
    matching_mode matching_threshold log :
  let records :=
    filter_tp_objects object_results target_labels matching_mode matching_threshold in
  let ground_truth :=
    filter_ground_truth_objects ground_truth_objects target_labels in
  len records ≤ sys_maxsize →
  len ground_truth ≤ sys_maxsize →
  records ≠ [] ∨ ground_truth ≠ [] →
  ∃ (log' : Log) (a : Ap.t),
    Ap.__init__ object_results ground_truth_objects target_labels
      matching_mode matching_threshold log = (log', Return a)
    ∧ Ap.ground_truth_objects_num a = len ground_truth
    ∧ length (Ap.tp_list a) = length records
    ∧ length (Ap.fp_list a) = length records.
Proof.
  intros records ground_truth Hrecords Hground_truth Hsome.
  destruct (decide (records = [])) as [Hnil|Hne].
  { destruct Hsome as [?|Hgt]; [done|]. eexists _, _. split.
    - by apply Ap_init_no_records.
    - fold records. by rewrite Hnil. }
  destruct (calculate_tp_fp_nonempty records (len ground_truth) log Hne)
    as (tp & fp & Hrun & Htp & Hfp & Hat).
  destruct (get_precision_recall_list_returns tp (len ground_truth))
    as (precision & recall & Hcurve & Hprecision & Hrecall & _).
  - apply Forall_lookup_2. intros i t Hi.
    assert (i < length records)%nat as Hlt by (apply lookup_lt_Some in Hi; lia).
    destruct (Hat i Hlt) as [Ht _]. rewrite Hi in Ht. injection Ht as ->.
    apply sys_maxsize_convertible.
    pose proof (correct_upto_bounds records i). unfold len in Hrecords. lia.
  - apply sys_maxsize_convertible. unfold len in *. lia.
  - apply sys_maxsize_convertible. unfold len in *. lia.
  - eexists log, _. split.
    + unfold Ap.__init__. fold records ground_truth.
      rewrite (Py_bind_Return _ _ _ _ _ Hrun). unfold pure at 1.
      erewrite Py_bind_Return; [|by rewrite Hcurve]. unfold pure.
      rewrite calculate_ap_parallel; [reflexivity| |lia].
      destruct precision; [|done]. destruct records; simpl in *; [done|lia].
    + done.
Qed.

(** [Map.__init__] raises what the first per-label construction that raises
    raised. *)
Lemma Map_init_raises object_results ground_truth_objects target_labels
    matching_mode matching_threshold log log' (e : exception) :
  mapM (λ target_label,
          Ap.__init__ object_results ground_truth_objects [target_label]
            matching_mode matching_threshold) target_labels log
  = (log', Raise e) →
  Map.__init__ object_results ground_truth_objects target_labels
    matching_mode matching_threshold log = (log', Raise e).
Proof.
  intros Hm. assert (target_labels ≠ []) as Hne by (by intros ->).
  unfold Map.__init__. rewrite truthy_nonempty by done. cbn [negb MapConfig.target_labels].
  apply Py_bind_Raise.
  generalize (@nil Ap.t). revert log Hm. clear Hne.
  induction target_labels as [|target_label target_labels IH]; intros log Hm aps0;
    [done|]. simpl in *.
  destruct (Ap.__init__ object_results ground_truth_objects [target_label]
              matching_mode matching_threshold log) as [log1 [a|e1]] eqn:Ha.
  - rewrite (Py_bind_Return _ _ _ _ _ Ha) in Hm.
    erewrite Py_bind_Return; [|by rewrite (Py_bind_Return _ _ _ _ _ Ha)].
    apply IH.
    destruct (@mapM (Py Log) _ _ _ _
                (λ target_label,
                   Ap.__init__ object_results ground_truth_objects [target_label]
                     matching_mode matching_threshold) target_labels log1)
      as [log2 [aps'|e2]] eqn:Hrest.
    + by rewrite (Py_bind_Return _ _ _ _ _ Hrest) in Hm.
    + by rewrite (Py_bind_Raise _ _ _ _ _ Hrest) in Hm.
  - rewrite (Py_bind_Raise _ _ _ _ _ Ha) in Hm. injection Hm as <- <-.
    apply Py_bind_Raise. by apply Py_bind_Raise.
Qed.

End average_precision.

Section absent_label.
Context `{!AwmlEvaluation}.
Implicit Types (object_results : list DynamicObjectWithResult).
Implicit Types (ground_truth_objects : list DynamicObject).
Implicit Types (log : Log).

Lemma mapM_raises_after {A B} (f : A → Py Log B) (before after : list A) (x : A)
    log log1 log2 (ys : list B) (e : exception) :
  mapM f before log = (log1, Return ys) →
  f x log1 = (log2, Raise e) →
  mapM f (before ++ x :: after) log = (log2, Raise e).
Proof.
  revert log ys. induction before as [|b before IH]; intros log ys; simpl.
  - intros [= <- <-] Hx. by apply Py_bind_Raise.
  - intros Hm Hx. destruct (f b log) as [log' [y|e']] eqn:Hb;
      [|by rewrite (Py_bind_Raise _ _ _ _ _ Hb) in Hm].
    rewrite (Py_bind_Return _ _ _ _ _ Hb) in Hm.
    rewrite (Py_bind_Return _ _ _ _ _ Hb).
    destruct (mapM f before log') as [log'' [ys'|e']] eqn:Hrest;
      [|by rewrite (Py_bind_Raise _ _ _ _ _ Hrest) in Hm].
    rewrite (Py_bind_Return _ _ _ _ _ Hrest) in Hm. injection Hm as <- <-.
    apply Py_bind_Raise. by eapply IH.
Qed.

(** C5, on the code: when a configured label has no object result and no
    ground-truth object left by the filters (a label absent from the frame)
    and AP construction returned for the labels before it, mAP construction
    raises [IndexError]: no AP per label and no mean exist. This is the
    missing case of the accumulator, reached through [Map.__init__]. *)
Theorem Map_init_label_absent object_results ground_truth_objects
    (before after : list AutowareLabel) (absent : AutowareLabel)
    matching_mode matching_threshold log log' (aps : list Ap.t) :
  mapM (λ target_label,
          Ap.__init__ object_results ground_truth_objects [target_label]
            matching_mode matching_threshold) before log
  = (log', Return aps) →
  filter_tp_objects object_results [absent] matching_mode matching_threshold = [] →
  filter_ground_truth_objects ground_truth_objects [absent] = [] →
  Map.__init__ object_results ground_truth_objects (before ++ absent :: after)
    matching_mode matching_threshold log
  = (log', Raise IndexError).
Proof.
  intros Hbefore Hrecords Hground_truth. apply Map_init_raises.
  eapply mapM_raises_after; [exact Hbefore|].
  by apply Ap_init_nothing_left.
Qed.

End absent_label.

(** The instance of C5 in the scenario: cars only in the frame, cars and
    pedestrians configured. *)
Lemma Map_init_label_absent_witness :
  @Map.__init__ Scenario.awml (take 4 Scenario.object_results)
    Scenario.ground_truth_objects [Scenario.CAR; Scenario.PEDESTRIAN]
    IOU3d 0.5%float []
  = ([], Raise IndexError).
Proof.
  eapply (@Map_init_label_absent Scenario.awml (take 4 Scenario.object_results)
            Scenario.ground_truth_objects [Scenario.CAR] [] Scenario.PEDESTRIAN
            IOU3d 0.5%float [] []).
  - vm_compute. reflexivity.
  - reflexivity.
  - reflexivity.
Defined.

(** In the scenario: a plane-distance threshold and no other threshold
    configured, and [evaluate] leaves the list of results empty. *)
Lemma evaluate_plane_distance_only :
  @MetricsScore.evaluate Scenario.awml Scenario.object_results
    Scenario.ground_truth_objects
    (MetricsScore.__init__ Scenario.plane_distance_config, [])
  = ((MetricsScore.__init__ Scenario.plane_distance_config, []), Return ()).
Proof. by vm_compute. Qed.

(** In the scenario: an AP for pedestrians on a frame with cars only. *)
Lemma Ap_init_label_absent :
  @Ap.__init__ Scenario.awml (take 4 Scenario.object_results)
    Scenario.ground_truth_objects [Scenario.PEDESTRIAN] IOU3d 0.5%float []
  = ([], Raise IndexError).
Proof. by vm_compute. Qed.

(* ===================================================================== *)
(** ** More on the TP/FP accumulator *)
(* ===================================================================== *)

Section accumulator_more.
Context `{!AwmlEvaluation}.
Implicit Types (records later : list DynamicObjectWithResult) (i : nat).

Lemma filter_flags (flags : DynamicObjectWithResult → bool) records :
  length (List.filter flags records) = length (List.filter id (flags <$> records)).
Proof.
  induction records as [|r records IH]; [done|]. simpl. unfold id at 1.
  destruct (flags r); simpl; by rewrite IH.
Qed.

Lemma correct_upto_flags records records' i :
  is_label_correct <$> records = is_label_correct <$> records' →
  Spec.correct_upto records i = Spec.correct_upto records' i.
Proof.
  intros Hflags. unfold Spec.correct_upto, len.
  by rewrite !filter_flags, !fmap_take, Hflags.
Qed.

Lemma correct_upto_app records later i :
  (i < length records)%nat →
  Spec.correct_upto (records ++ later) i = Spec.correct_upto records i.
Proof. intros Hi. unfold Spec.correct_upto. by rewrite take_app_le by lia. Qed.

Lemma correct_upto_last records :
  Spec.correct_upto records (length records - 1) =
    len (List.filter is_label_correct records).
Proof. unfold Spec.correct_upto. by rewrite take_ge by lia. Qed.

(** X1: on a record list that is not empty, every count the accumulator
    returns lies between 0 and the rank [i + 1], [fp] stays or grows by one
    from one index to the next, and the last entries of [tp] and [fp] are the
    numbers of records whose label-correct flag is true and false. *)
Theorem calculate_tp_fp_bounds records (ground_truth_objects_num : Z) (log : Log) :
  records ≠ [] →
  ∃ tp fp,
    Ap._calculate_tp_fp records ground_truth_objects_num log = (log, Return (tp, fp))
    ∧ (∀ i t f, tp !! i = Some t → fp !! i = Some f →
         0 ≤ t ≤ Z.of_nat i + 1 ∧ 0 ≤ f ≤ Z.of_nat i + 1)
    ∧ (∀ i f f', fp !! i = Some f → fp !! S i = Some f' → f' = f ∨ f' = f + 1)
    ∧ tp !! (length records - 1)%nat
      = Some (len (List.filter is_label_correct records))
    ∧ fp !! (length records - 1)%nat
      = Some (len (List.filter (λ r, negb (is_label_correct r)) records)).
Proof.
  intros Hne.
  destruct (calculate_tp_fp_nonempty records ground_truth_objects_num log Hne)
    as (tp & fp & Hrun & Htp & Hfp & Hat).
  assert (0 < length records)%nat as Hpos by (destruct records; [done|simpl; lia]).
  exists tp, fp. split_and!; [done| | | |].
  - intros i t f Ht Hf.
    destruct (Hat i) as [Ht' Hf']; [apply lookup_lt_Some in Ht; lia|].
    rewrite Ht in Ht'. rewrite Hf in Hf'. simplify_eq.
    pose proof (correct_upto_bounds records i). lia.
  - intros i f f' Hf Hf'.
    assert (S i < length records)%nat as Hi by (apply lookup_lt_Some in Hf'; lia).
    destruct (Hat i) as [_ Hi1]; [lia|]. destruct (Hat (S i)) as [_ Hi2]; [lia|].
    rewrite Hf in Hi1. rewrite Hf' in Hi2. simplify_eq.
    destruct (lookup_lt_is_Some_2 records (S i) Hi) as [r Hr].
    rewrite (correct_upto_S records i r Hr). destruct (is_label_correct r); lia.
  - destruct (Hat (length records - 1)%nat) as [-> _]; [lia|].
    by rewrite correct_upto_last.
  - destruct (Hat (length records - 1)%nat) as [_ ->]; [lia|].
    rewrite correct_upto_last. f_equal. unfold len.
    pose proof (List.filter_length is_label_correct records). lia.
Qed.

(** X2: on a record list that is not empty the accumulator looks at the
    label-correct flags only: two lists with the same flags give the same
    sequences, whatever else the records hold and whatever the two
    ground-truth counts are. *)
Theorem calculate_tp_fp_flags_only records records'
    (ground_truth_objects_num ground_truth_objects_num' : Z) (log : Log) :
  records ≠ [] →
  is_label_correct <$> records = is_label_correct <$> records' →
  Ap._calculate_tp_fp records ground_truth_objects_num log
  = Ap._calculate_tp_fp records' ground_truth_objects_num' log.
Proof.
  intros Hne Hflags.
  assert (length records = length records') as Hlen
    by (by rewrite <- (length_fmap is_label_correct records), Hflags, length_fmap).
  assert (records' ≠ []) as Hne' by (destruct records, records'; done).
  destruct (calculate_tp_fp_nonempty records ground_truth_objects_num log Hne)
    as (tp & fp & -> & Htp & Hfp & Hat).
  destruct (calculate_tp_fp_nonempty records' ground_truth_objects_num' log Hne')
    as (tp' & fp' & -> & Htp' & Hfp' & Hat').
  do 3 f_equal; apply list_eq; intros i;
    destruct (decide (i < length records)%nat) as [Hi|Hi].
  - destruct (Hat i Hi) as [-> _]. destruct (Hat' i) as [-> _]; [lia|].
    by rewrite (correct_upto_flags records records').
  - by rewrite !lookup_ge_None_2 by lia.
  - destruct (Hat i Hi) as [_ ->]. destruct (Hat' i) as [_ ->]; [lia|].
    by rewrite (correct_upto_flags records records').
  - by rewrite !lookup_ge_None_2 by lia.
Qed.

(** X3: records appended after a record list that is not empty leave the
    counts of the ranks before them as they were: the sequences of the longer
    list start with the sequences of the shorter one. *)
Theorem calculate_tp_fp_prefix records later
    (ground_truth_objects_num : Z) (log : Log) :
  records ≠ [] →
  ∃ tp fp tp' fp',
    Ap._calculate_tp_fp records ground_truth_objects_num log = (log, Return (tp, fp))
    ∧ Ap._calculate_tp_fp (records ++ later) ground_truth_objects_num log
      = (log, Return (tp', fp'))
    ∧ take (length records) tp' = tp
    ∧ take (length records) fp' = fp.
Proof.
  intros Hne.
  assert (records ++ later ≠ []) as Hne' by (by destruct records).
  destruct (calculate_tp_fp_nonempty records ground_truth_objects_num log Hne)
    as (tp & fp & Hrun & Htp & Hfp & Hat).
  destruct (calculate_tp_fp_nonempty _ ground_truth_objects_num log Hne')
    as (tp' & fp' & Hrun' & Htp' & Hfp' & Hat').
  rewrite length_app in Htp', Hfp', Hat'.
  exists tp, fp, tp', fp'. split_and!; [done|done| |];
    apply list_eq; intros i; destruct (decide (i < length records)%nat) as [Hi|Hi].
  - rewrite lookup_take_lt by done.
    destruct (Hat i Hi) as [-> _]. destruct (Hat' i) as [-> _]; [lia|].
    by rewrite correct_upto_app.
  - rewrite lookup_take_ge by lia. by rewrite lookup_ge_None_2 by lia.
  - rewrite lookup_take_lt by done.
    destruct (Hat i Hi) as [_ ->]. destruct (Hat' i) as [_ ->]; [lia|].
    by rewrite correct_upto_app.
  - rewrite lookup_take_ge by lia. by rewrite lookup_ge_None_2 by lia.
Qed.

End accumulator_more.

(* ===================================================================== *)
(** ** When the AP computation raises *)
(* ===================================================================== *)

Lemma getitem_ge {A} (l : list A) (i : Z) : len l ≤ i → getitem l i = Raise IndexError.
Proof.
  intros Hi. unfold getitem, position. pose proof (len_nonneg l).
  by rewrite !bool_decide_eq_false_2 by lia.
Qed.

(** X4: [_calculate_ap] returns exactly when the precision list is empty (the
    AP is then 0.0 whatever the recall list is) or the recall list has at
    least one item and at most one item more than the precision list; when
    the precision list is not empty and the recall list is empty or at least
    two items longer, it raises [IndexError]. Lists of different lengths are
    not refused as such. *)
Theorem calculate_ap_returns_iff (precision recall : list float) :
  (precision = [] → Ap._calculate_ap precision recall = Return 0%float)
  ∧ (precision ≠ [] →
     (1 ≤ length recall ≤ length precision + 1)%nat →
     ∃ ap, Ap._calculate_ap precision recall = Return ap)
  ∧ (precision ≠ [] →
     recall = [] ∨ (length precision + 2 ≤ length recall)%nat →
     Ap._calculate_ap precision recall = Raise IndexError).
Proof.
  split_and!.
  - by intros ->.
  - intros Hp Hr. unfold Ap._calculate_ap.
    rewrite bool_decide_eq_false_2
      by (unfold len; destruct precision; [done|simpl; lia]).
    assert (recall ≠ []) as Hrecall by (destruct recall; [simpl in Hr; lia|done]).
    rewrite (getitem_last_default precision 0%float Hp). cbn [mbind outcome_bind].
    rewrite (getitem_last_default recall 0%float Hrecall). cbn [mbind outcome_bind].
    set (I := λ (k : Z) (s : list float * list float),
      s.1 ≠ [] ∧ length s.1 = length s.2).
    match goal with
    | |- context [for_in _ ?b ?s0] => set (body := b); set (start := s0)
    end.
    destruct (for_in_reversed_range_invariant I 0 (len recall - 1) body start)
      as ([envelope envelope_recall] & -> & Hnonempty & Hlen).
    + unfold len. lia.
    + done.
    + intros j [envelope envelope_recall] Hj (Hs & Hlen). cbn [fst snd] in Hs, Hlen.
      unfold len in Hj.
      assert (∃ k : nat, j = Z.of_nat k) as [k ->] by (exists (Z.to_nat j); lia).
      destruct (lookup_lt_is_Some_2 precision k) as [p Hpk]; [lia|].
      destruct (lookup_lt_is_Some_2 recall k) as [r Hrk]; [lia|].
      unfold body. rewrite (getitem_lookup _ _ _ Hpk). cbn [mbind outcome_bind].
      rewrite (getitem_last_default envelope 0%float Hs). cbn [mbind outcome_bind].
      destruct (_ <? _)%float.
      * rewrite (getitem_lookup _ _ _ Hrk). cbn [mbind outcome_bind].
        eexists. split; [reflexivity|]. unfold I, append. cbn [fst snd].
        rewrite !length_app, Hlen. split; [|done]. by destruct envelope.
      * by eexists.
    + cbn [fst snd mbind outcome_bind] in *.
      rewrite (getitem_last_default envelope 0%float Hnonempty).
      cbn [mbind outcome_bind]. unfold append. eexists.
      apply riemann_sum_loop; [by destruct envelope|].
      rewrite !length_app. simpl. lia.
  - intros Hp Hr. unfold Ap._calculate_ap.
    rewrite bool_decide_eq_false_2
      by (unfold len; destruct precision; [done|simpl; lia]).
    rewrite (getitem_last_default precision 0%float Hp). cbn [mbind outcome_bind].
    destruct Hr as [->|Hr]; [by rewrite getitem_nil|].
    assert (recall ≠ []) as Hrecall by (destruct recall; [simpl in Hr; lia|done]).
    rewrite (getitem_last_default recall 0%float Hrecall). cbn [mbind outcome_bind].
    replace (len recall - 1) with ((len recall - 2) + 1) by lia.
    rewrite range_snoc by (unfold len; lia). rewrite reverse_snoc.
    cbn [for_in mbind outcome_bind].
    by rewrite (getitem_ge precision) by (unfold len; lia).
Qed.

Section average_precision_cases.
Context `{!AwmlEvaluation}.
Implicit Types (object_results : list DynamicObjectWithResult).
Implicit Types (ground_truth_objects : list DynamicObject).
Implicit Types (target_labels : list AutowareLabel) (log : Log).

(** X5: the three cases of [Ap.__init__], on lists of a length Python lists
    can have. When the filters leave no record and no ground-truth object it
    raises [IndexError] and logs nothing. When they leave no record but a
    ground-truth object it logs one warning and returns an AP of 0.0 with
    empty sequences. When they leave a record it logs nothing and returns an
    object that holds the configuration, the number of ground-truth objects
    left, and TP and FP sequences with one entry per record left. *)
Theorem Ap_init_cases object_results ground_truth_objects target_labels
    matching_mode matching_threshold log :
  let records :=
    filter_tp_objects object_results target_labels matching_mode matching_threshold in
  let ground_truth :=
    filter_ground_truth_objects ground_truth_objects target_labels in
  let run :=
    Ap.__init__ object_results ground_truth_objects target_labels
      matching_mode matching_threshold log in
  len records ≤ sys_maxsize →
  len ground_truth ≤ sys_maxsize →
  (records = [] → ground_truth = [] → run = (log, Raise IndexError))
  ∧ (records = [] → ground_truth ≠ [] →
     ∃ a, run = (log ++ ["The size of object_results is 0"], Return a)
          ∧ Ap.tp_list a = [] ∧ Ap.fp_list a = [] ∧ Ap.ap a = 0%float)
  ∧ (records ≠ [] →
     ∃ a, run = (log, Return a)
          ∧ Ap.target_labels a = target_labels
          ∧ Ap.matching_mode a = matching_mode
          ∧ Ap.matching_threshold a = matching_threshold
          ∧ Ap.ground_truth_objects_num a = len ground_truth
          ∧ length (Ap.tp_list a) = length records
          ∧ length (Ap.fp_list a) = length records).
Proof.
  intros records ground_truth run Hrecords Hground_truth. subst run. split_and!.
  - intros Hr Hg. by apply Ap_init_nothing_left.
  - intros Hr Hg. eexists. split; [by apply Ap_init_no_records|done].
  - intros Hne.
    destruct (calculate_tp_fp_nonempty records (len ground_truth) log Hne)
      as (tp & fp & Hrun & Htp & Hfp & Hat).
    destruct (get_precision_recall_list_returns tp (len ground_truth))
      as (precision & recall & Hcurve & Hprecision & Hrecall & _).
    + apply Forall_lookup_2. intros i t Hi.
      assert (i < length records)%nat as Hlt by (apply lookup_lt_Some in Hi; lia).
      destruct (Hat i Hlt) as [Ht _]. rewrite Hi in Ht. injection Ht as ->.
      apply sys_maxsize_convertible.
      pose proof (correct_upto_bounds records i). unfold len in Hrecords. lia.
    + apply sys_maxsize_convertible. unfold len in *. lia.
    + apply sys_maxsize_convertible. unfold len in *. lia.
    + assert (precision ≠ []) as Hcurve_ne.
      { destruct precision; [|done]. destruct records; simpl in *; [done|lia]. }
      eexists. split.
      { unfold Ap.__init__. fold records ground_truth.
        rewrite (Py_bind_Return _ _ _ _ _ Hrun). unfold pure at 1.
        erewrite Py_bind_Return; [|by rewrite Hcurve]. unfold pure.
        rewrite calculate_ap_parallel; [reflexivity|done|lia]. }
      split_and!; [reflexivity..|exact Htp|exact Hfp].
Qed.

End average_precision_cases.

(* ===================================================================== *)
(** ** What a constructed Map holds *)
(* ===================================================================== *)

Section map_attributes.
Context `{!AwmlEvaluation}.
Implicit Types (object_results : list DynamicObjectWithResult).
Implicit Types (ground_truth_objects : list DynamicObject).
Implicit Types (target_labels : list AutowareLabel) (log : Log).

(** Reading back what [Map.__init__] did from the object it returned. *)
Lemma Map_init_inversion object_results ground_truth_objects target_labels
    matching_mode matching_threshold log log' (m : Map.t) :
  Map.__init__ object_results ground_truth_objects target_labels
    matching_mode matching_threshold log = (log', Return m) →
  (target_labels = []
   ∧ m = {| Map.map_config := None; Map.aps := None; Map.map := None |})
  ∨ (target_labels ≠ []
     ∧ Map.map_config m =
         Some {| MapConfig.target_labels := target_labels;
                 MapConfig.matching_mode := matching_mode;
                 MapConfig.matching_threshold := matching_threshold |}
     ∧ ∃ (aps : list Ap.t) (map : float),
         Map.aps m = Some aps
         ∧ Forall2 (λ target_label a, Ap.target_labels a = [target_label])
             target_labels aps
         ∧ Map.map m = Some map).
Proof.
  intros Hrun. destruct (decide (target_labels = [])) as [->|Hne].
  { left. split; [done|].
    change (Map.__init__ object_results ground_truth_objects [] matching_mode
              matching_threshold log)
      with (log ++ ["target_labels is empty ([])"],
            Return {| Map.map_config := None; Map.aps := None; Map.map := None |})
      in Hrun.
    by injection Hrun as _ <-. }
  right. split; [done|].
  destruct (@mapM (Py Log) _ _ _ _
              (λ target_label,
                 Ap.__init__ object_results ground_truth_objects [target_label]
                   matching_mode matching_threshold) target_labels log)
    as [log1 [aps|e]] eqn:Haps.
  - destruct (Map_init_aps_loop _ _ _ _ _ _ _ [] _ Haps) as [Hloop Hlabels].
    unfold Map.__init__ in Hrun. rewrite truthy_nonempty in Hrun by done.
    cbn [negb MapConfig.target_labels] in Hrun.
    rewrite (Py_bind_Return _ _ _ _ _ Hloop) in Hrun.
    rewrite (Py_bind_Return _ _ _ _ _ (Map_init_sum_loop _ _ _)) in Hrun.
    unfold pure, mbind, Py_bind in Hrun.
    destruct (truediv _ _) as [map|e]; [|done].
    injection Hrun as _ <-. split; [done|]. by exists aps, map.
  - by rewrite (Map_init_raises _ _ _ _ _ _ _ _ Haps) in Hrun.
Qed.

(** X6: a [Map] that was constructed has none of its three attributes when
    the list of target labels is empty, and all three when it is not: the
    configuration it was given, one [Ap] per target label, each with that
    label as its target set, and a mean. *)
Theorem Map_init_attributes object_results ground_truth_objects target_labels
    matching_mode matching_threshold log log' (m : Map.t) :
  Map.__init__ object_results ground_truth_objects target_labels
    matching_mode matching_threshold log = (log', Return m) →
  (target_labels = []
   ∧ m = {| Map.map_config := None; Map.aps := None; Map.map := None |})
  ∨ (target_labels ≠ []
     ∧ Map.map_config m =
         Some {| MapConfig.target_labels := target_labels;
                 MapConfig.matching_mode := matching_mode;
                 MapConfig.matching_threshold := matching_threshold |}
     ∧ ∃ (aps : list Ap.t) (map : float),
         Map.aps m = Some aps
         ∧ Forall2 (λ target_label a, Ap.target_labels a = [target_label])
             target_labels aps
         ∧ Map.map m = Some map).
Proof.
  intros Hrun.
  destruct (Map_init_inversion _ _ _ _ _ _ _ _ Hrun) as [[-> ->]|(Hne & Hconfig & Haps)].
  - by left.
  - right. by split_and!.
Qed.

Lemma mapM_returns {A B} (f : A → Py Log B) (xs : list A) :
  (∀ x, x ∈ xs → ∀ log, ∃ log' y, f x log = (log', Return y)) →
  ∀ log, ∃ log' ys, mapM f xs log = (log', Return ys).
Proof.
  induction xs as [|x xs IH]; intros Hf log; [by eexists _, _|]. simpl.
  destruct (Hf x (list_elem_of_here x xs) log) as (log1 & y & Hx).
  destruct (IH (λ x' Hx', Hf x' (list_elem_of_further _ _ _ Hx')) log1)
    as (log2 & ys & Hxs).
  exists log2, (y :: ys).
  rewrite (Py_bind_Return _ _ _ _ _ Hx). by rewrite (Py_bind_Return _ _ _ _ _ Hxs).
Qed.

(** X7: mAP construction returns when the list of target labels is not empty
    and, for every target label, the filters leave an object result or a
    ground-truth object (on lists of a length Python lists can have). The
    [Map] then holds one [Ap] per label, and its mean is the sum of their AP
    values, taken in label order from 0.0, divided by the number of labels. *)
Theorem Map_init_returns object_results ground_truth_objects target_labels
    matching_mode matching_threshold log :
  target_labels ≠ [] →
  len target_labels ≤ sys_maxsize →
  (∀ target_label, target_label ∈ target_labels →
     let records :=
       filter_tp_objects object_results [target_label] matching_mode matching_threshold in
     let ground_truth :=
       filter_ground_truth_objects ground_truth_objects [target_label] in
     len records ≤ sys_maxsize
     ∧ len ground_truth ≤ sys_maxsize
     ∧ (records ≠ [] ∨ ground_truth ≠ [])) →
  ∃ (log' : Log) (m : Map.t) (aps : list Ap.t),
    Map.__init__ object_results ground_truth_objects target_labels
      matching_mode matching_threshold log = (log', Return m)
    ∧ Map.aps m = Some aps
    ∧ length aps = length target_labels
    ∧ Map.map m = Some (Spec.sum_ap aps / Z2float (len target_labels))%float.
Proof.
  intros Hne Hlen Hpresent.
  destruct (mapM_returns
              (λ target_label,
                 Ap.__init__ object_results ground_truth_objects [target_label]
                   matching_mode matching_threshold) target_labels) with (log := log)
    as (log' & aps & Haps).
  { intros target_label Hin log0.
    destruct (Hpresent target_label Hin) as (Hrecords & Hground_truth & Hsome).
    destruct (Ap_init_returns object_results ground_truth_objects [target_label]
                matching_mode matching_threshold log0 Hrecords Hground_truth Hsome)
      as (log1 & a & Ha & _).
    by exists log1, a. }
  destruct (Map_init_mean _ _ _ _ _ _ _ _ Hne Hlen Haps)
    as (m & Hrun & Hm & Hlabels & Hmean & _).
  exists log', m, aps. split_and!; [done|done| |done].
  symmetry. by eapply Forall2_length.
Qed.

End map_attributes.

(* ===================================================================== *)
(** ** More on MetricsScore.evaluate *)
(* ===================================================================== *)

Section evaluate_more.
Context `{!AwmlEvaluation}.
Implicit Types (self : MetricsScore.t) (log : Log).
Implicit Types (object_results : list DynamicObjectWithResult).
Implicit Types (ground_truth_objects : list DynamicObject).

(** One guarded block of [_evaluation_detection], when every construction
    returns. *)
Lemma detection_block_results object_results ground_truth_objects target_labels
    matching_mode (thresholds : list float) self log log' (new : list Map.t) :
  mapM (λ threshold_,
          Map.__init__ object_results ground_truth_objects target_labels
            matching_mode threshold_) thresholds log
  = (log', Return new) →
  (if truthy thresholds
   then for_in thresholds
          (λ threshold_ _,
             map_ ← within (Map.__init__ object_results ground_truth_objects
                              target_labels matching_mode threshold_);
             MetricsScore.self_maps_append map_) ()
   else mret ()) (self, log)
  = (({| MetricsScore.config := MetricsScore.config self;
         MetricsScore.maps := MetricsScore.maps self ++ new |}, log'), Return ()).
Proof.
  intros Hnew. destruct thresholds as [|t thresholds].
  - injection Hnew as <- <-. destruct self. simpl. by rewrite app_nil_r.
  - rewrite truthy_cons. by apply detection_loop_results.
Qed.

(** One loop of [_evaluation_detection], when a construction raises: the
    results constructed before it stay appended. *)
Lemma detection_loop_raises object_results ground_truth_objects target_labels
    matching_mode (before after : list float) (threshold_ : float)
    self log log1 log2 (new : list Map.t) (e : exception) :
  mapM (λ threshold_,
          Map.__init__ object_results ground_truth_objects target_labels
            matching_mode threshold_) before log
  = (log1, Return new) →
  Map.__init__ object_results ground_truth_objects target_labels
    matching_mode threshold_ log1 = (log2, Raise e) →
  for_in (before ++ threshold_ :: after)
    (λ threshold_ _,
       map_ ← within (Map.__init__ object_results ground_truth_objects
                        target_labels matching_mode threshold_);
       MetricsScore.self_maps_append map_)
    () (self, log)
  = (({| MetricsScore.config := MetricsScore.config self;
         MetricsScore.maps := MetricsScore.maps self ++ new |}, log2), Raise e).
Proof.
  revert self log new. induction before as [|t before IH];
    intros [config maps] log new; simpl.
  - intros [= <- <-] Hraise. rewrite app_nil_r.
    apply Py_bind_Raise. apply Py_bind_Raise. unfold within. simpl. by rewrite Hraise.
  - intros Hm Hraise.
    destruct (Map.__init__ object_results ground_truth_objects target_labels
                matching_mode t log) as [log' [map_|e']] eqn:Hmap;
      [|by rewrite (Py_bind_Raise _ _ _ _ _ Hmap) in Hm].
    rewrite (Py_bind_Return _ _ _ _ _ Hmap) in Hm.
    destruct (@mapM (Py Log) _ _ _ _
                (λ threshold_,
                   Map.__init__ object_results ground_truth_objects target_labels
                     matching_mode threshold_) before log')
      as [log'' [new'|e']] eqn:Hrest;
      [|by rewrite (Py_bind_Raise _ _ _ _ _ Hrest) in Hm].
    rewrite (Py_bind_Return _ _ _ _ _ Hrest) in Hm. injection Hm as <- <-.
    erewrite Py_bind_Return; last first.
    { erewrite Py_bind_Return; [reflexivity|]. unfold within. simpl. by rewrite Hmap. }
    etrans; [apply (IH _ _ _ Hrest Hraise)|]. simpl. unfold append.
    by rewrite <- app_assoc.
Qed.

(** X9: [evaluate] is not all-or-nothing. When the constructions for the
    center-distance thresholds and for the IoU thresholds before some
    threshold return, and the construction for that IoU threshold raises,
    [evaluate] raises the same exception and the results constructed before
    it stay appended to [self.maps]. *)
Theorem evaluate_keeps_results_on_raise object_results ground_truth_objects
    (config : MetricsScoreConfig.t) (maps : list Map.t)
    (before after : list float) (threshold_ : float)
    log log1 log2 log3 (center iou : list Map.t) (e : exception) :
  let construct matching_mode :=
    mapM (λ threshold_,
            Map.__init__ object_results ground_truth_objects
              (MetricsScoreConfig.target_labels config) matching_mode threshold_) in
  MetricsScoreConfig.map_thresholds_iou config = before ++ threshold_ :: after →
  construct CENTERDISTANCE (MetricsScoreConfig.map_thresholds_center_distance config) log
  = (log1, Return center) →
  construct IOU3d before log1 = (log2, Return iou) →
  Map.__init__ object_results ground_truth_objects
    (MetricsScoreConfig.target_labels config) IOU3d threshold_ log2
  = (log3, Raise e) →
  MetricsScore.evaluate object_results ground_truth_objects
    ({| MetricsScore.config := config; MetricsScore.maps := maps |}, log)
  = (({| MetricsScore.config := config;
         MetricsScore.maps := maps ++ center ++ iou |}, log3), Raise e).
Proof.
  intros construct Hthresholds Hcenter Hiou Hraise.
  unfold MetricsScore.evaluate. apply Py_bind_Raise.
  unfold MetricsScore._evaluation_detection.
  erewrite Py_bind_Return; [|reflexivity]. cbn [fst MetricsScore.config].
  erewrite Py_bind_Return; [|by apply detection_block_results].
  cbn [MetricsScore.config MetricsScore.maps].
  apply Py_bind_Raise. rewrite Hthresholds.
  rewrite truthy_nonempty by (by destruct before).
  etrans; [by eapply detection_loop_raises|].
  simpl. by rewrite <- app_assoc.
Qed.

(** The constructions of one block when there is no target label. *)
Lemma construct_no_labels object_results ground_truth_objects matching_mode
    (thresholds : list float) log :
  mapM (λ threshold_,
          Map.__init__ object_results ground_truth_objects [] matching_mode threshold_)
    thresholds log
  = (log ++ replicate (length thresholds) "target_labels is empty ([])",
     Return (replicate (length thresholds)
               {| Map.map_config := None; Map.aps := None; Map.map := None |})).
Proof.
  revert log. induction thresholds as [|t thresholds IH]; intros log; simpl.
  - by rewrite app_nil_r.
  - erewrite Py_bind_Return; [|reflexivity].
    rewrite (Py_bind_Return _ _ _ _ _ (IH _)).
    unfold mret, Py_ret. by rewrite <- app_assoc.
Qed.

(** [_evaluation_detection] when there is no target label. *)
Lemma evaluation_detection_no_labels object_results ground_truth_objects
    (config : MetricsScoreConfig.t) (maps : list Map.t) log :
  MetricsScoreConfig.target_labels config = [] →
  let n :=
    (length (MetricsScoreConfig.map_thresholds_center_distance config)
     + length (MetricsScoreConfig.map_thresholds_iou config)
     + if truthy (MetricsScoreConfig.map_thresholds_center_distance config)
       then length (MetricsScoreConfig.map_thresholds_plane_distance config)
       else 0)%nat in
  MetricsScore._evaluation_detection object_results ground_truth_objects
    ({| MetricsScore.config := config; MetricsScore.maps := maps |}, log)
  = (({| MetricsScore.config := config;
         MetricsScore.maps :=
           maps ++ replicate n
                     {| Map.map_config := None; Map.aps := None; Map.map := None |} |},
      log ++ replicate n "target_labels is empty ([])"),
     Return ()).
Proof.
  intros Hlabels n.
  rewrite (evaluation_detection_results object_results ground_truth_objects config maps log
             _ _ _ _ _ _
             ltac:(rewrite Hlabels; apply construct_no_labels)
             ltac:(rewrite Hlabels; apply construct_no_labels)
             ltac:(rewrite Hlabels; apply construct_no_labels)).
  subst n. destruct (MetricsScoreConfig.map_thresholds_center_distance config) as [|t ts].
  - change (truthy (@nil float)) with false. cbv iota. simpl.
    by rewrite Nat.add_0_r, app_nil_r.
  - rewrite !truthy_cons. by rewrite !replicate_add, <- !app_assoc.
Qed.

(** X10: with no target label configured, [evaluate] never raises. It appends
    one [Map] without attributes per center-distance threshold, per IoU
    threshold and, when a center-distance threshold is configured, per
    plane-distance threshold, and it logs one warning for each of them. *)
Theorem evaluate_no_labels object_results ground_truth_objects
    (config : MetricsScoreConfig.t) (maps : list Map.t) log :
  MetricsScoreConfig.target_labels config = [] →
  let n :=
    (length (MetricsScoreConfig.map_thresholds_center_distance config)
     + length (MetricsScoreConfig.map_thresholds_iou config)
     + if truthy (MetricsScoreConfig.map_thresholds_center_distance config)
       then length (MetricsScoreConfig.map_thresholds_plane_distance config)
       else 0)%nat in
  MetricsScore.evaluate object_results ground_truth_objects
    ({| MetricsScore.config := config; MetricsScore.maps := maps |}, log)
  = (({| MetricsScore.config := config;
         MetricsScore.maps :=
           maps ++ replicate n
                     {| Map.map_config := None; Map.aps := None; Map.map := None |} |},
      log ++ replicate n "target_labels is empty ([])"),
     Return ()).
Proof.
  intros Hlabels n. unfold MetricsScore.evaluate.
  erewrite Py_bind_Return; [|by apply evaluation_detection_no_labels].
  reflexivity.
Qed.

End evaluate_more.

(* ===================================================================== *)
(** ** Printing a MetricsScore *)
(* ===================================================================== *)

Section printing.
Context `{!AwmlEvaluation} `{!Formatting}.
Implicit Types (self : MetricsScore.t) (log : Log) (P : Map.t → Prop).
Implicit Types (config : MetricsScoreConfig.t).

Lemma maps_keeping_ret {A} P config (a : A) : maps_keeping P config (mret a).
Proof. by intros self log Hconfig HP. Qed.

Lemma maps_keeping_bind {A B} P config (m : Py MetricsScore.Store A)
    (f : A → Py MetricsScore.Store B) :
  maps_keeping P config m → (∀ a, maps_keeping P config (f a)) →
  maps_keeping P config (m ≫= f).
Proof.
  intros Hm Hf self log Hconfig HP. specialize (Hm self log Hconfig HP).
  unfold mbind, Py_bind.
  destruct (m (self, log)) as [[self1 log1] [a|e]]; simpl in *; [|done].
  destruct Hm as [HP1 Hconfig1]. by apply Hf.
Qed.

Lemma maps_keeping_for_in {A B} P config (xs : list B)
    (body : B → A → Py MetricsScore.Store A) (s : A) :
  (∀ x s, maps_keeping P config (body x s)) → maps_keeping P config (for_in xs body s).
Proof.
  intros Hbody. revert s. induction xs as [|x xs IH]; intros s; simpl.
  - apply maps_keeping_ret.
  - apply maps_keeping_bind; [apply Hbody|apply IH].
Qed.

Lemma maps_keeping_with_config {A} P config
    (f : MetricsScoreConfig.t → Py MetricsScore.Store A) :
  maps_keeping P config (f config) →
  maps_keeping P config (MetricsScore.self_config ≫= f).
Proof.
  intros Hf self log Hconfig HP. unfold mbind, Py_bind, MetricsScore.self_config.
  cbn [fst]. rewrite Hconfig. by apply Hf.
Qed.

(** Constructing a [Map] and appending it keeps what every constructed [Map]
    satisfies. *)
Lemma maps_keeping_construct P config object_results ground_truth_objects
    target_labels matching_mode (threshold_ : float) :
  (∀ log log' m,
     Map.__init__ object_results ground_truth_objects target_labels
       matching_mode threshold_ log = (log', Return m) → P m) →
  maps_keeping P config
    (map_ ← within (Map.__init__ object_results ground_truth_objects
                      target_labels matching_mode threshold_);
     MetricsScore.self_maps_append map_).
Proof.
  intros Hconstructed [config' maps] log Hconfig HP. simpl in *.
  unfold mbind, Py_bind, within. simpl.
  destruct (Map.__init__ _ _ _ _ _ log) as [log' [m|e]] eqn:Hm; simpl; [|done].
  split; [|done]. unfold append. apply Forall_app. split; [done|].
  apply Forall_singleton. by eapply Hconstructed.
Qed.

Lemma evaluate_maps_keeping P config object_results ground_truth_objects :
  (∀ matching_mode threshold_ log log' m,
     Map.__init__ object_results ground_truth_objects
       (MetricsScoreConfig.target_labels config) matching_mode threshold_ log
     = (log', Return m) → P m) →
  maps_keeping P config (MetricsScore.evaluate object_results ground_truth_objects).
Proof.
  intros Hconstructed.
  assert (∀ matching_mode (thresholds : list float) (guard : bool),
    maps_keeping P config
      (if guard
       then for_in thresholds
              (λ threshold_ _,
                 map_ ← within (Map.__init__ object_results ground_truth_objects
                                  (MetricsScoreConfig.target_labels config)
                                  matching_mode threshold_);
                 MetricsScore.self_maps_append map_) ()
       else mret ())) as Hblock.
  { intros matching_mode thresholds [|]; [|apply maps_keeping_ret].
    apply maps_keeping_for_in. intros threshold_ _.
    apply maps_keeping_construct. apply Hconstructed. }
  unfold MetricsScore.evaluate. apply maps_keeping_bind.
  - unfold MetricsScore._evaluation_detection. apply maps_keeping_with_config.
    apply maps_keeping_bind; [apply Hblock|]. intros _.
    apply maps_keeping_bind; [apply Hblock|]. intros _. apply Hblock.
  - intros _. apply maps_keeping_bind; [apply maps_keeping_ret|].
    intros _. apply maps_keeping_ret.
Qed.

(** [__str__] returns when every stored [Map] has its three attributes. *)
Lemma str_returns (maps : list Map.t) (config : MetricsScoreConfig.t) :
  Forall (λ m, is_Some (Map.map_config m) ∧ is_Some (Map.aps m) ∧ is_Some (Map.map m))
    maps →
  ∃ text,
    MetricsScoreStr.__str__ {| MetricsScore.config := config; MetricsScore.maps := maps |}
    = Read text.
Proof.
  unfold MetricsScoreStr.__str__. cbn [MetricsScore.maps].
  match goal with
  | |- context [for_in _ ?b newline] => set (body := b)
  end.
  generalize newline.
  induction maps as [|m maps IH]; intros text Hall; [by eexists|].
  apply Forall_cons in Hall as [([c Hc] & [aps Haps] & [x Hx]) Hall].
  assert (∃ text', body m text = Read text') as [text' Hstep].
  { unfold body. rewrite Hc, Haps, Hx. by eexists. }
  destruct (IH text' Hall) as [final Hfinal].
  exists final. cbn [for_in]. by rewrite Hstep.
Qed.

(** X11: printing a [MetricsScore] with at least one target label configured
    never raises, whatever calls of [evaluate] came before and whatever they
    ended in: every stored result has the attributes [__str__] reads. *)
Theorem str_after_calls_returns (config : MetricsScoreConfig.t) (frames : list Frame) :
  MetricsScoreConfig.target_labels config ≠ [] →
  ∃ text,
    MetricsScoreStr.__str__
      (store_after_calls frames (MetricsScore.__init__ config, [])).1
    = Read text.
Proof.
  intros Hlabels.
  set (P := λ m : Map.t,
    is_Some (Map.map_config m) ∧ is_Some (Map.aps m) ∧ is_Some (Map.map m)).
  assert (∀ frames (store : MetricsScore.Store),
    MetricsScore.config store.1 = config → Forall P (MetricsScore.maps store.1) →
    MetricsScore.config (store_after_calls frames store).1 = config
    ∧ Forall P (MetricsScore.maps (store_after_calls frames store).1)) as Hcalls.
  { clear frames. intros frames. induction frames as [|frame frames IH];
      intros [self log] Hconfig HP; [done|].
    unfold store_after_calls. cbn [foldl]. apply IH.
    - by apply (evaluate_maps_keeping P config frame.1 frame.2);
        [intros matching_mode threshold_ log0 log' m Hm;
         destruct (Map_init_inversion _ _ _ _ _ _ _ _ Hm)
           as [[? _]|(_ & Hc & aps & x & Haps & _ & Hx)]; [done|];
         unfold P; rewrite Hc, Haps, Hx; eauto|..].
    - by apply (evaluate_maps_keeping P config frame.1 frame.2);
        [intros matching_mode threshold_ log0 log' m Hm;
         destruct (Map_init_inversion _ _ _ _ _ _ _ _ Hm)
           as [[? _]|(_ & Hc & aps & x & Haps & _ & Hx)]; [done|];
         unfold P; rewrite Hc, Haps, Hx; eauto|..]. }
  destruct (Hcalls frames (MetricsScore.__init__ config, [])) as [Hconfig HP];
    [done|by apply Forall_nil|].
  destruct (store_after_calls frames (MetricsScore.__init__ config, [])).1
    as [config' maps]. by apply str_returns.
Qed.

(** X12: with no target label configured and a center-distance or an IoU
    threshold configured, printing the [MetricsScore] after a call of
    [evaluate] raises [AttributeError]: the stored results have no
    [map_config]. *)
Theorem str_no_labels_raises (config : MetricsScoreConfig.t)
    object_results ground_truth_objects :
  MetricsScoreConfig.target_labels config = [] →
  MetricsScoreConfig.map_thresholds_center_distance config ≠ []
  ∨ MetricsScoreConfig.map_thresholds_iou config ≠ [] →
  MetricsScoreStr.__str__
    (MetricsScore.evaluate object_results ground_truth_objects
       (MetricsScore.__init__ config, [])).1.1
  = AttributeError "map_config".
Proof.
  intros Hlabels Hthreshold. unfold MetricsScore.evaluate.
  erewrite Py_bind_Return;
    [|by apply (evaluation_detection_no_labels object_results ground_truth_objects
                  config [] [] Hlabels)].
  cbn [fst snd app MetricsScore._evaluation_tracking MetricsScore._evaluation_prediction].
  unfold mbind, Py_bind, mret, Py_ret. cbn [fst].
  unfold MetricsScoreStr.__str__. cbn [MetricsScore.maps].
  destruct (MetricsScoreConfig.map_thresholds_center_distance config) as [|t ts];
    [destruct Hthreshold as [?|Hiou]; [done|];
     destruct (MetricsScoreConfig.map_thresholds_iou config); [done|]|];
    reflexivity.
Qed.

End printing.

(* ===================================================================== *)
(** ** The flat string of a list of strings *)
(* ===================================================================== *)

Lemma string_app_assoc (a b c : string) : (a +:+ b) +:+ c = a +:+ (b +:+ c).
Proof.
  induction a as [|x a IH]; [done|].
  change (String x ((a +:+ b) +:+ c) = String x (a +:+ (b +:+ c))). by rewrite IH.
Qed.

Lemma string_app_nil_r (a : string) : a +:+ "" = a.
Proof.
  induction a as [|x a IH]; [done|].
  change (String x (a +:+ "") = String x a). by rewrite IH.
Qed.

Lemma string_length_app (a b : string) :
  String.length (a +:+ b) = (String.length a + String.length b)%nat.
Proof.
  induction a as [|x a IH]; [done|].
  change (S (String.length (a +:+ b)) = S (String.length a + String.length b)).
  by rewrite IH.
Qed.

(** The loop of [_get_flat_str] started from any string. *)
Lemma get_flat_str_loop (output : string) (str_list : list string) :
  foldl (λ output one_str, output +:+ "_" +:+ one_str) output str_list
  = output +:+ _get_flat_str str_list.
Proof.
  unfold _get_flat_str. revert output.
  induction str_list as [|one_str str_list IH]; intros output; simpl.
  - by rewrite string_app_nil_r.
  - rewrite (IH (output +:+ "_" +:+ one_str)), (IH ("" +:+ "_" +:+ one_str)).
    change ("" +:+ "_" +:+ one_str) with ("_" +:+ one_str).
    by rewrite string_app_assoc.
Qed.

(** The strings joined by underscores, as the loop builds them. *)
Lemma get_flat_str_concat (first : string) (str_list : list string) :
  first +:+ _get_flat_str str_list = String.concat "_" (first :: str_list).
Proof.
  revert first. induction str_list as [|second str_list IH]; intros first.
  - apply string_app_nil_r.
  - change (String.concat "_" (first :: second :: str_list))
      with (first +:+ "_" +:+ String.concat "_" (second :: str_list)).
    rewrite <- IH. unfold _get_flat_str at 1. cbn [foldl].
    rewrite get_flat_str_loop.
    change ("" +:+ "_" +:+ second) with ("_" +:+ second).
    by rewrite string_app_assoc.
Qed.

(** X13: [_get_flat_str] puts an underscore before every string, the first
    one included: on a list that is not empty the result is an underscore
    followed by the strings joined by underscores (for [aaa, bbb, ccc] it is
    [_aaa_bbb_ccc], not the [aaa_bbb_ccc] of the docstring), and on the empty
    list it is the empty string. *)
Theorem get_flat_str_join (str_list : list string) :
  _get_flat_str str_list
  = match str_list with
    | [] => ""
    | _ :: _ => "_" +:+ String.concat "_" str_list
    end.
Proof.
  destruct str_list as [|first str_list]; [done|].
  unfold _get_flat_str. cbn [foldl]. rewrite get_flat_str_loop.
  change ("" +:+ "_" +:+ first) with ("_" +:+ first).
  by rewrite string_app_assoc, get_flat_str_concat.
Qed.

(** X14: the flat string of two lists one after the other is the flat string
    of the first followed by the flat string of the second, and its length is
    the number of strings plus the sum of their lengths. *)
Theorem get_flat_str_app (str_list1 str_list2 : list string) :
  _get_flat_str (str_list1 ++ str_list2)
  = _get_flat_str str_list1 +:+ _get_flat_str str_list2
  ∧ String.length (_get_flat_str str_list1)
    = (length str_list1 + sum_list_with String.length str_list1)%nat.
Proof.
  split.
  - unfold _get_flat_str at 1. rewrite foldl_app.
    fold (_get_flat_str str_list1). apply get_flat_str_loop.
  - induction str_list1 as [|one_str str_list1 IH] using rev_ind; [done|].
    unfold _get_flat_str. rewrite foldl_snoc. fold (_get_flat_str str_list1).
    rewrite !string_length_app, IH, length_app, sum_list_with_app. simpl. lia.
Qed.

(* ===================================================================== *)
(** ** The pass/fail result of a frame *)
(* ===================================================================== *)

Lemma filter_sublist {A} (keep : A → bool) (l : list A) : List.filter keep l `sublist_of` l.
Proof.
  induction l as [|x l IH]; [done|]. simpl.
  destruct (keep x); [by apply sublist_skip|by apply sublist_cons].
Qed.

Section pass_fail_more.
Context `{!PerceptionEval}.
Implicit Types (object_results : list DynamicObjectWithPerceptionResult).
Implicit Types (critical : list ObjectType).

(** [get_tp_fp_object_results] with a list of critical objects. *)
Lemma get_tp_fp_object_results_critical
    (frame_pass_fail_config : PerceptionPassFailConfig.t) object_results critical :
  let divided :=
    divide_tp_fp_objects object_results
      (PerceptionPassFailConfig.target_labels frame_pass_fail_config)
      (PerceptionPassFailConfig.matching_mode frame_pass_fail_config)
      (PerceptionPassFailConfig.matching_threshold_list frame_pass_fail_config) in
  PassFailResult.get_tp_fp_object_results frame_pass_fail_config object_results
    (Some critical)
  = (divided.1,
     if PerceptionPassFailConfig.leave_only_critical_fp frame_pass_fail_config
     then List.filter
            (λ r, PassFailResult.contains (ground_truth_object r) critical) divided.2
     else divided.2).
Proof.
  intros divided. unfold PassFailResult.get_tp_fp_object_results. fold divided.
  destruct divided as [tp fp].
  destruct (PerceptionPassFailConfig.leave_only_critical_fp _); [|done].
  cbn [negb fst snd]. f_equal.
  exact (critical_fp_loop
           (λ r, PassFailResult.contains (ground_truth_object r) critical) fp []).
Qed.

(** X15: whatever the flag and the critical objects are, the classifier
    returns the TP results of [divide_tp_fp_objects] as they are, and as FP
    results a selection of its FP results in their order: it never adds a
    result, moves one, or turns a TP into an FP. *)
Theorem get_tp_fp_object_results_sublist
    (frame_pass_fail_config : PerceptionPassFailConfig.t) object_results
    (critical_ground_truth_objects : option (list ObjectType)) :
  let divided :=
    divide_tp_fp_objects object_results
      (PerceptionPassFailConfig.target_labels frame_pass_fail_config)
      (PerceptionPassFailConfig.matching_mode frame_pass_fail_config)
      (PerceptionPassFailConfig.matching_threshold_list frame_pass_fail_config) in
  let result :=
    PassFailResult.get_tp_fp_object_results frame_pass_fail_config object_results
      critical_ground_truth_objects in
  result.1 = divided.1 ∧ result.2 `sublist_of` divided.2.
Proof.
  intros divided result. subst result.
  destruct critical_ground_truth_objects as [critical|].
  - rewrite get_tp_fp_object_results_critical. fold divided. cbn [fst snd].
    split; [done|]. destruct (PerceptionPassFailConfig.leave_only_critical_fp _);
      [apply filter_sublist|done].
  - unfold PassFailResult.get_tp_fp_object_results. fold divided.
    destruct divided as [tp fp].
    destruct (PerceptionPassFailConfig.leave_only_critical_fp _); cbn [negb fst snd];
      [|done].
    split; [done|]. rewrite (critical_fp_loop (λ _, false) fp []).
    apply filter_sublist.
Qed.

Section evaluate.
Context `{!PerceptionFilters}.
Implicit Types (self : PassFailResultObject.t).

(** What [evaluate] leaves in the object. *)
Lemma PassFailResult_evaluate_attributes self object_results
    (ros_critical_ground_truth_objects : list ObjectType) :
  let critical :=
    filter_objects ros_critical_ground_truth_objects true
      (PassFailResultObject.ego2map self) (PassFailResultObject.filtering_params self) in
  let config := PassFailResultObject.frame_pass_fail_config self in
  let divided :=
    divide_tp_fp_objects object_results
      (PerceptionPassFailConfig.target_labels config)
      (PerceptionPassFailConfig.matching_mode config)
      (PerceptionPassFailConfig.matching_threshold_list config) in
  let after :=
    PassFailResultObject.evaluate self object_results ros_critical_ground_truth_objects in
  PassFailResultObject.critical_ground_truth_objects after = critical
  ∧ PassFailResultObject.tp_object_results after = divided.1
  ∧ PassFailResultObject.fp_object_results after
    = (if PerceptionPassFailConfig.leave_only_critical_fp config
       then List.filter
              (λ r, PassFailResult.contains (ground_truth_object r) critical) divided.2
       else divided.2)
  ∧ PassFailResultObject.fn_objects after
    = get_fn_objects critical object_results divided.1.
Proof.
  intros critical config divided after. subst after.
  unfold PassFailResultObject.evaluate. fold critical config.
  rewrite get_tp_fp_object_results_critical. fold divided. by cbn.
Qed.

(** X16: after [evaluate] with [leave_only_critical_fp] set, every stored FP
    result is matched with a ground-truth object that is an item of the
    critical ground-truth objects the object stores; a result matched with
    nothing is never stored as FP. *)
Theorem PassFailResult_evaluate_fp_critical self object_results
    (ros_critical_ground_truth_objects : list ObjectType) :
  PerceptionPassFailConfig.leave_only_critical_fp
    (PassFailResultObject.frame_pass_fail_config self) = true →
  let after :=
    PassFailResultObject.evaluate self object_results ros_critical_ground_truth_objects in
  ∀ r, r ∈ PassFailResultObject.fp_object_results after →
    ∃ g c, ground_truth_object r = Some g
           ∧ c ∈ PassFailResultObject.critical_ground_truth_objects after
           ∧ same_object g c = true.
Proof.
  intros Hflag after r Hr. subst after.
  destruct (PassFailResult_evaluate_attributes self object_results
              ros_critical_ground_truth_objects) as (Hcritical & _ & Hfp & _).
  rewrite Hfp, Hflag in Hr. rewrite Hcritical.
  apply list_elem_of_In, List.filter_In in Hr as [_ Hkeep].
  unfold PassFailResult.contains in Hkeep.
  destruct (ground_truth_object r) as [g|]; [|done].
  apply existsb_exists in Hkeep as (c & Hc & Hsame).
  exists g, c. split_and!; [done| |done]. by apply list_elem_of_In.
Qed.

(** X17: setting [leave_only_critical_fp] never raises the number of fail
    objects of a frame: on the same frame the object with the flag stores the
    same critical objects, TP results and FN objects as the object without
    it, and no more FP results. *)
Theorem get_fail_object_num_leave_only_critical
    (critical_object_filter_config : FilteringParams)
    (target_labels : list LabelType) (matching_mode : PerceptionMatchingMode)
    (matching_threshold_list : list float) (ego2map : option Ego2Map)
    object_results (ros_critical_ground_truth_objects : list ObjectType) :
  let after leave_only_critical_fp :=
    PassFailResultObject.evaluate
      (PassFailResultObject.__init__ critical_object_filter_config
         {| PerceptionPassFailConfig.target_labels := target_labels;
            PerceptionPassFailConfig.matching_mode := matching_mode;
            PerceptionPassFailConfig.matching_threshold_list := matching_threshold_list;
            PerceptionPassFailConfig.leave_only_critical_fp := leave_only_critical_fp |}
         ego2map)
      object_results ros_critical_ground_truth_objects in
  PassFailResultObject.get_fail_object_num (after true)
  ≤ PassFailResultObject.get_fail_object_num (after false)
  ∧ PassFailResultObject.critical_ground_truth_objects (after true)
    = PassFailResultObject.critical_ground_truth_objects (after false)
  ∧ PassFailResultObject.tp_object_results (after true)
    = PassFailResultObject.tp_object_results (after false)
  ∧ PassFailResultObject.fn_objects (after true)
    = PassFailResultObject.fn_objects (after false).
Proof.
  intros after.
  destruct (PassFailResult_evaluate_attributes
              (PassFailResultObject.__init__ critical_object_filter_config
                 {| PerceptionPassFailConfig.target_labels := target_labels;
                    PerceptionPassFailConfig.matching_mode := matching_mode;
                    PerceptionPassFailConfig.matching_threshold_list :=
                      matching_threshold_list;
                    PerceptionPassFailConfig.leave_only_critical_fp := true |}
                 ego2map) object_results ros_critical_ground_truth_objects)
    as (Hc1 & Htp1 & Hfp1 & Hfn1).
  destruct (PassFailResult_evaluate_attributes
              (PassFailResultObject.__init__ critical_object_filter_config
                 {| PerceptionPassFailConfig.target_labels := target_labels;
                    PerceptionPassFailConfig.matching_mode := matching_mode;
                    PerceptionPassFailConfig.matching_threshold_list :=
                      matching_threshold_list;
                    PerceptionPassFailConfig.leave_only_critical_fp := false |}
                 ego2map) object_results ros_critical_ground_truth_objects)
    as (Hc2 & Htp2 & Hfp2 & Hfn2).
  fold (after true) in Hc1, Htp1, Hfp1, Hfn1.
  fold (after false) in Hc2, Htp2, Hfp2, Hfn2.
  cbn in Hc1, Htp1, Hfp1, Hfn1, Hc2, Htp2, Hfp2, Hfn2.
  split_and!.
  - unfold PassFailResultObject.get_fail_object_num.
    rewrite Hfn1, Hfn2, Hfp1, Hfp2. unfold len.
    match goal with
    | |- context [List.filter ?keep ?l] =>
        pose proof (List.filter_length_le keep l)
    end. lia.
  - by rewrite Hc1, Hc2.
  - by rewrite Htp1, Htp2.
  - by rewrite Hfn1, Hfn2.
Qed.

(** X18: when [leave_only_critical_fp] is set and the critical-object filter
    leaves no object, [evaluate] stores no FP result, and the number of fail
    objects is the number of FN objects. *)
Theorem PassFailResult_evaluate_no_critical self object_results
    (ros_critical_ground_truth_objects : list ObjectType) :
  PerceptionPassFailConfig.leave_only_critical_fp
    (PassFailResultObject.frame_pass_fail_config self) = true →
  filter_objects ros_critical_ground_truth_objects true
    (PassFailResultObject.ego2map self) (PassFailResultObject.filtering_params self)
  = [] →
  let after :=
    PassFailResultObject.evaluate self object_results ros_critical_ground_truth_objects in
  PassFailResultObject.fp_object_results after = []
  ∧ PassFailResultObject.get_fail_object_num after
    = len (PassFailResultObject.fn_objects after).
Proof.
  intros Hflag Hnone after. subst after.
  destruct (PassFailResult_evaluate_attributes self object_results
              ros_critical_ground_truth_objects) as (_ & _ & Hfp & _).
  rewrite Hflag, Hnone in Hfp.
  assert (PassFailResultObject.fp_object_results
            (PassFailResultObject.evaluate self object_results
               ros_critical_ground_truth_objects) = []) as Hempty.
  { rewrite Hfp. clear. induction (_.2) as [|r fp IH]; [done|]. simpl.
    by destruct (ground_truth_object r). }
  split; [done|]. unfold PassFailResultObject.get_fail_object_num.
  rewrite Hempty. unfold len. simpl. lia.
Qed.

End evaluate.
End pass_fail_more.

(* ===================================================================== *)
(** ** The properties above in the scenario *)
(* ===================================================================== *)

(** The instance of X1 in the scenario: three of the five records are
    correct. *)
Lemma calculate_tp_fp_bounds_witness :
  ∃ tp fp,
    @Ap._calculate_tp_fp Scenario.awml Scenario.object_results 4 [] = ([], Return (tp, fp))
    ∧ tp !! 4%nat = Some 3
    ∧ fp !! 4%nat = Some 2.
Proof.
  destruct (@calculate_tp_fp_bounds Scenario.awml Scenario.object_results 4 [])
    as (tp & fp & Hrun & _ & _ & Htp & Hfp); [done|].
  by exists tp, fp.
Defined.

(** The instance of X2 in the scenario: the labels of the records and the
    ground-truth count are changed, the flags are not. *)
Lemma calculate_tp_fp_flags_only_witness :
  @Ap._calculate_tp_fp Scenario.awml
    [(Scenario.CAR, true); (Scenario.CAR, false)] 4 []
  = @Ap._calculate_tp_fp Scenario.awml
      [(Scenario.PEDESTRIAN, true); (Scenario.PEDESTRIAN, false)] 0 [].
Proof. by apply (@calculate_tp_fp_flags_only Scenario.awml). Defined.

(** The instance of X3 in the scenario: the pedestrian record after the four
    car records. *)
Lemma calculate_tp_fp_prefix_witness :
  ∃ tp fp tp' fp',
    @Ap._calculate_tp_fp Scenario.awml (take 4 Scenario.object_results) 4 []
    = ([], Return (tp, fp))
    ∧ @Ap._calculate_tp_fp Scenario.awml
        (take 4 Scenario.object_results ++ drop 4 Scenario.object_results) 4 []
      = ([], Return (tp', fp'))
    ∧ take 4 tp' = tp
    ∧ take 4 fp' = fp.
Proof.
  by apply (@calculate_tp_fp_prefix Scenario.awml (take 4 Scenario.object_results)
              (drop 4 Scenario.object_results) 4 []).
Defined.

(** The instance of X4: a recall list one item longer than the precision
    list is accepted, a recall list two items longer is not. *)
Lemma calculate_ap_returns_iff_witness :
  (∃ ap, Ap._calculate_ap [0.5]%float [0.25; 0.5]%float = Return ap)
  ∧ Ap._calculate_ap [0.5]%float [0.25; 0.5; 0.75]%float = Raise IndexError.
Proof.
  split.
  - apply (proj1 (proj2 (calculate_ap_returns_iff [0.5]%float [0.25; 0.5]%float)));
      [done|simpl; lia].
  - apply (proj2 (proj2 (calculate_ap_returns_iff [0.5]%float [0.25; 0.5; 0.75]%float)));
      [done|right; simpl; lia].
Defined.

(** The instance of X5 in the scenario, for the car label. *)
Lemma Ap_init_cases_witness :
  ∃ a : @Ap.t Scenario.awml,
    @Ap.__init__ Scenario.awml Scenario.object_results Scenario.ground_truth_objects
      [Scenario.CAR] IOU3d 0.5%float [] = ([], Return a)
    ∧ Ap.ground_truth_objects_num a = 4
    ∧ length (Ap.tp_list a) = 4%nat.
Proof.
  destruct (proj2 (proj2 (@Ap_init_cases Scenario.awml Scenario.object_results
                            Scenario.ground_truth_objects [Scenario.CAR] IOU3d
                            0.5%float [] ltac:(by vm_compute) ltac:(by vm_compute))))
    as (a & Hrun & _ & _ & _ & Hnum & Htp & _); [done|].
  by exists a.
Defined.

(** The instance of X6 in the scenario. *)
Lemma Map_init_attributes_witness :
  ∃ (m : @Map.t Scenario.awml) (aps : list Ap.t) (map : float),
    @Map.__init__ Scenario.awml Scenario.object_results Scenario.ground_truth_objects
      [Scenario.CAR; Scenario.PEDESTRIAN] IOU3d 0.5%float [] = ([], Return m)
    ∧ Map.aps m = Some aps
    ∧ length aps = 2%nat
    ∧ Map.map m = Some map.
Proof.
  assert (∃ m, @Map.__init__ Scenario.awml Scenario.object_results
                 Scenario.ground_truth_objects [Scenario.CAR; Scenario.PEDESTRIAN]
                 IOU3d 0.5%float [] = ([], Return m)) as [m Hrun]
    by (eexists; vm_compute; reflexivity).
  destruct (@Map_init_attributes Scenario.awml _ _ _ _ _ _ _ m Hrun)
    as [[? _]|(_ & _ & aps & map & Haps & Hlabels & Hmap)]; [done|].
  exists m, aps, map. split_and!; [done..| |done].
  by apply Forall2_length in Hlabels.
Defined.

(** The instance of X7 in the scenario: both labels have an object result. *)
Lemma Map_init_returns_witness :
  ∃ (log' : Log) (m : @Map.t Scenario.awml) (aps : list Ap.t),
    @Map.__init__ Scenario.awml Scenario.object_results Scenario.ground_truth_objects
      [Scenario.CAR; Scenario.PEDESTRIAN] IOU3d 0.5%float [] = (log', Return m)
    ∧ Map.aps m = Some aps
    ∧ length aps = 2%nat
    ∧ Map.map m = Some (Spec.sum_ap aps / Z2float 2)%float.
Proof.
  apply (@Map_init_returns Scenario.awml Scenario.object_results
           Scenario.ground_truth_objects [Scenario.CAR; Scenario.PEDESTRIAN]
           IOU3d 0.5%float []); [done|by vm_compute|].
  intros target_label Hin.
  assert (target_label = Scenario.CAR ∨ target_label = Scenario.PEDESTRIAN) as [->| ->]
    by (by destruct target_label; [left|right]);
    (split_and!; [by vm_compute|by vm_compute|left; by vm_compute]).
Defined.

(** The instance of X8 in the scenario: one center-distance and one IoU
    threshold give two results, in that order. *)
Lemma fresh_call_results_witness :
  ∃ center iou : @Map.t Scenario.awml,
    (@fresh_call Scenario.awml Scenario.metrics_config
       (Scenario.object_results, Scenario.ground_truth_objects)).1
    = [center] ++ [iou] ++ [].
Proof.
  eexists _, _.
  eapply (@fresh_call_results Scenario.awml Scenario.metrics_config
            (Scenario.object_results, Scenario.ground_truth_objects));
    vm_compute; reflexivity.
Defined.

(** The instance of X9 in the scenario with scores: the center-distance
    result is constructed and stays, the IoU construction raises. *)
Lemma evaluate_keeps_results_on_raise_witness :
  ∃ center : @Map.t Scenario.awml_scored,
    @MetricsScore.evaluate Scenario.awml_scored Scenario.scored_object_results []
      (MetricsScore.__init__ Scenario.scored_config, [])
    = (({| MetricsScore.config := Scenario.scored_config;
           MetricsScore.maps := [center] |}, []), Raise IndexError).
Proof.
  eexists.
  etrans;
    [eapply (@evaluate_keeps_results_on_raise Scenario.awml_scored
               Scenario.scored_object_results [] Scenario.scored_config [] [] []
               0.5%float [] [] [] [] _ []);
       [reflexivity|vm_compute; reflexivity|reflexivity|vm_compute; reflexivity]
    |reflexivity].
Defined.

(** The instance of X10 in the scenario: three thresholds, three results
    without attributes and three warnings. *)
Lemma evaluate_no_labels_witness :
  @MetricsScore.evaluate Scenario.awml Scenario.object_results
    Scenario.ground_truth_objects (MetricsScore.__init__ Scenario.no_label_config, [])
  = (({| MetricsScore.config := Scenario.no_label_config;
         MetricsScore.maps :=
           replicate 3 {| Map.map_config := None; Map.aps := None; Map.map := None |} |},
      replicate 3 "target_labels is empty ([])"), Return ()).
Proof.
  by apply (@evaluate_no_labels Scenario.awml Scenario.object_results
              Scenario.ground_truth_objects Scenario.no_label_config [] []).
Defined.

(** The instance of X11 in the scenario: printing after two calls. *)
Lemma str_after_calls_returns_witness :
  ∃ text,
    @MetricsScoreStr.__str__ Scenario.awml Scenario.formatting
      (@store_after_calls Scenario.awml
         (replicate 2 (Scenario.object_results, Scenario.ground_truth_objects))
         (MetricsScore.__init__ Scenario.metrics_config, [])).1
    = Read text.
Proof.
  by apply (@str_after_calls_returns Scenario.awml Scenario.formatting
              Scenario.metrics_config).
Defined.

(** The instance of X12 in the scenario. *)
Lemma str_no_labels_raises_witness :
  @MetricsScoreStr.__str__ Scenario.awml Scenario.formatting
    (@MetricsScore.evaluate Scenario.awml Scenario.object_results
       Scenario.ground_truth_objects
       (MetricsScore.__init__ Scenario.no_label_config, [])).1.1
  = AttributeError "map_config".
Proof.
  apply (@str_no_labels_raises Scenario.awml Scenario.formatting
           Scenario.no_label_config); [done|by left].
Defined.

(** The instance of X16 in the scenario: objects 1 and 2 are critical, and the
    one FP result that is stored is matched with object 2. *)
Lemma PassFailResult_evaluate_fp_critical_witness :
  let after :=
    @PassFailResultObject.evaluate Scenario.perception Scenario.perception_filters
      (@PassFailResultObject.__init__ Scenario.perception Scenario.perception_filters
         2%nat (Scenario.pass_fail_config true) None)
      Scenario.perception_results [1; 2; 3; 4]%nat in
  PassFailResultObject.fp_object_results after = [(Some 2%nat, false)]
  ∧ ∃ g c, Some 2%nat = Some g ∧ c ∈ [1; 2]%nat ∧ Nat.eqb g c = true.
Proof.
  split; [reflexivity|].
  apply (@PassFailResult_evaluate_fp_critical Scenario.perception
           Scenario.perception_filters
           (@PassFailResultObject.__init__ Scenario.perception Scenario.perception_filters
              2%nat (Scenario.pass_fail_config true) None)
           Scenario.perception_results [1; 2; 3; 4]%nat eq_refl (Some 2%nat, false)).
  by apply list_elem_of_here.
Defined.

(** The instance of X18 in the scenario: no object is numbered 0. *)
Lemma PassFailResult_evaluate_no_critical_witness :
  let after :=
    @PassFailResultObject.evaluate Scenario.perception Scenario.perception_filters
      (@PassFailResultObject.__init__ Scenario.perception Scenario.perception_filters
                0%nat (Scenario.pass_fail_config true) None)
      Scenario.perception_results [1; 2; 3; 4]%nat in
  PassFailResultObject.fp_object_results after = []
  ∧ PassFailResultObject.get_fail_object_num after
    = len (PassFailResultObject.fn_objects after).
Proof.
  apply (@PassFailResult_evaluate_no_critical Scenario.perception
           Scenario.perception_filters
           (@PassFailResultObject.__init__ Scenario.perception Scenario.perception_filters
                0%nat (Scenario.pass_fail_config true) None)
           Scenario.perception_results [1; 2; 3; 4]%nat eq_refl eq_refl).
Defined.

(* ===================================================================== *)
(** ** Repeated calls of evaluate *)
(* ===================================================================== *)

Lemma mapM_Return_length {A B} (f : A → Py Log B) (xs : list A) (log log' : Log)
    (ys : list B) :
  mapM f xs log = (log', Return ys) → length ys = length xs.
Proof.
  revert log log' ys. induction xs as [|x xs IH]; intros log log' ys; simpl.
  - by intros [= _ <-].
  - intros Hm.
    destruct (f x log) as [log1 [y|e]] eqn:Hx;
      [|by rewrite (Py_bind_Raise _ _ _ _ _ Hx) in Hm].
    rewrite (Py_bind_Return _ _ _ _ _ Hx) in Hm.
    destruct (@mapM (Py Log) _ _ _ _ f xs log1) as [log2 [ys'|e]] eqn:Hxs;
      [|by rewrite (Py_bind_Raise _ _ _ _ _ Hxs) in Hm].
    rewrite (Py_bind_Return _ _ _ _ _ Hxs) in Hm. injection Hm as _ <-.
    simpl. f_equal. by eapply IH.
Qed.

Section repeated_calls.
Context `{!AwmlEvaluation}.

(** X19: [k] calls of [evaluate] on one frame leave [k] full sets of results
    after the results that were there, when a center-distance threshold is
    configured or no plane-distance threshold is, and every construction
    returns on the frame. A full set is, in this order, the [Map] constructed
    for each center-distance threshold, for each IoU threshold and for each
    plane-distance threshold: one result per configured pair. *)
Theorem evaluate_calls_full_sets (config : MetricsScoreConfig.t) (frame : Frame)
    (k : nat) (maps : list Map.t) (log log1 log2 log3 : Log)
    (center iou plane : list Map.t) :
  let construct matching_mode :=
    mapM (λ threshold_,
            Map.__init__ frame.1 frame.2
              (MetricsScoreConfig.target_labels config) matching_mode threshold_) in
  MetricsScoreConfig.map_thresholds_center_distance config ≠ []
  ∨ MetricsScoreConfig.map_thresholds_plane_distance config = [] →
  construct CENTERDISTANCE (MetricsScoreConfig.map_thresholds_center_distance config) []
  = (log1, Return center) →
  construct IOU3d (MetricsScoreConfig.map_thresholds_iou config) log1
  = (log2, Return iou) →
  construct PLANEDISTANCE (MetricsScoreConfig.map_thresholds_plane_distance config) log2
  = (log3, Return plane) →
  (store_after_calls (replicate k frame)
     ({| MetricsScore.config := config; MetricsScore.maps := maps |}, log)).1
  = {| MetricsScore.config := config;
       MetricsScore.maps := maps ++ concat (replicate k (center ++ iou ++ plane)) |}
  ∧ length center = length (MetricsScoreConfig.map_thresholds_center_distance config)
  ∧ length iou = length (MetricsScoreConfig.map_thresholds_iou config)
  ∧ length plane = length (MetricsScoreConfig.map_thresholds_plane_distance config).
Proof.
  intros construct Hguard Hcenter Hiou Hplane.
  split_and!; [|by eapply mapM_Return_length..].
  rewrite (proj2 (store_after_calls_appends []
                    {| MetricsScore.config := config; MetricsScore.maps := maps |} log)
             frame k).
  cbn [MetricsScore.config MetricsScore.maps]. do 3 f_equal.
  unfold fresh_call, MetricsScore.evaluate.
  pose proof (evaluation_detection_results frame.1 frame.2 config [] [] log1 log2 log3
                center iou plane Hcenter Hiou Hplane) as Hrun.
  subst construct.
  destruct (MetricsScoreConfig.map_thresholds_center_distance config) as [|t thresholds].
  - destruct Hguard as [?|Hnone]; [done|]. rewrite Hnone in Hplane.
    injection Hcenter as _ <-. injection Hplane as _ <-.
    erewrite Py_bind_Return by exact Hrun. simpl. by rewrite app_nil_r.
  - erewrite Py_bind_Return by exact Hrun. reflexivity.
Qed.

End repeated_calls.

(** The instance of X19 in the scenario: three calls, one center-distance and
    one IoU threshold, six results. *)
Lemma evaluate_calls_full_sets_witness :
  ∃ center iou : @Map.t Scenario.awml,
    (@store_after_calls Scenario.awml
       (replicate 3 (Scenario.object_results, Scenario.ground_truth_objects))
       (MetricsScore.__init__ Scenario.metrics_config, [])).1
    = {| MetricsScore.config := Scenario.metrics_config;
         MetricsScore.maps := [center; iou; center; iou; center; iou] |}.
Proof.
  eexists _, _.
  etrans;
    [eapply (@evaluate_calls_full_sets Scenario.awml Scenario.metrics_config
               (Scenario.object_results, Scenario.ground_truth_objects) 3 [] []);
       [by left|vm_compute; reflexivity..]
    |reflexivity].
Defined.

(** In the scenario: the [Map] for the plane-distance threshold 2.0 can be
    constructed on the frame, and three calls of [evaluate] with that
    threshold and no other configured leave the list of results empty. *)
Lemma evaluate_three_times_plane_distance_only :
  (∃ m, @Map.__init__ Scenario.awml Scenario.object_results
          Scenario.ground_truth_objects [Scenario.CAR; Scenario.PEDESTRIAN]
          PLANEDISTANCE 2.0%float [] = ([], Return m))
  ∧ @store_after_calls Scenario.awml
      (replicate 3 (Scenario.object_results, Scenario.ground_truth_objects))
      (MetricsScore.__init__ Scenario.plane_distance_config, [])
    = ({| MetricsScore.config := Scenario.plane_distance_config;
          MetricsScore.maps := [] |}, []).
Proof. split; [eexists|]; vm_compute; reflexivity. Qed.
